(** * Life Tracker (app.py): the journal store, the sleep-hours calculation,
    the streak calculation and the analytics window, embedded in Rocq.

    The Python program keeps one dict of day records (keyed by ISO date
    strings) in the session state, mutates it in place and rewrites one JSON
    file after each update.  The embedding keeps that shape:

    - Python values are a tagged union [pyval]; dicts are [gmap string _];
    - a [str] is given by its UTF-8 encoding and read character by
      character where the code does so ([len], iteration, [strptime]);
    - floats are IEEE binary64 values, represented exactly ([spec_float]);
    - functions that read or mutate the dict are computations of a small
      state-and-exception monad: the state survives a raised exception, as
      it does for a mutated Python object;
    - the file on disk, the session and the clock are explicit: the
      date the clock reports is part of the state where the code reads it
      once, and a sequence of readings where the code reads it in a
      loop. *)

From Stdlib Require Import ZArith Bool Ascii String List Lia.
From Stdlib Require Import Floats.SpecFloat.
From stdpp Require Import base option list gmap strings fin_maps.

Local Open Scope Z_scope.

(* ===================================================================== *)
(** * Exceptions and the computation monad *)
(* ===================================================================== *)

(** The exception classes the modelled code can raise. *)
Inductive exn : Type :=
  | AttributeError
  | TypeError
  | KeyError
  | ValueError
  | OverflowError
  | OSError
  | JSONDecodeError.

(** The outcome of evaluating a Python expression: a value or a raised
    exception. *)
Inductive result (A : Type) : Type :=
  | Ok (a : A)
  | Raise (e : exn).

Arguments Ok {A} a.
Arguments Raise {A} e.

Definition result_bind {A B : Type} (r : result A) (k : A -> result B) : result B :=
  match r with
  | Ok a => k a
  | Raise e => Raise e
  end.

(** [try: body / except: handler] with a bare [except], which catches every
    exception class. *)
Definition try_except {A : Type} (body : result A) (handler : A) : A :=
  match body with
  | Ok a => a
  | Raise _ => handler
  end.

(** A computation over a mutable state [S]: it yields a value or raises,
    and in both cases leaves a state behind. *)
Definition M (S A : Type) : Type := S -> result A * S.

Definition ret {S A : Type} (a : A) : M S A := fun s => (Ok a, s).

Definition bind {S A B : Type} (c : M S A) (k : A -> M S B) : M S B :=
  fun s =>
    match c s with
    | (Ok a, s') => k a s'
    | (Raise e, s') => (Raise e, s')
    end.

(** A pure, possibly raising expression evaluated inside a computation. *)
Definition lift {S A : Type} (r : result A) : M S A := fun s => (r, s).

Definition get_state {S : Type} : M S S := fun s => (Ok s, s).

(** [try: body / except: handler] around a computation; what [body] did to
    the state before raising stays done. *)
Definition try_catch {S A : Type} (body handler : M S A) : M S A :=
  fun s =>
    match body s with
    | (Ok a, s') => (Ok a, s')
    | (Raise _, s') => handler s'
    end.

Declare Scope py_scope.
Delimit Scope py_scope with py.

Notation "x <- c ;; k" := (bind c (fun x => k))
  (at level 100, c at next level, right associativity) : py_scope.
Notation "c ;;; k" := (bind c (fun _ => k))
  (at level 100, right associativity) : py_scope.
Notation "x <~ r ;; k" := (result_bind r (fun x => k))
  (at level 100, r at next level, right associativity) : py_scope.

Local Open Scope py_scope.

(* ===================================================================== *)
(** * Floats *)
(* ===================================================================== *)

(** Python floats are IEEE 754 binary64: 53 bits of precision, exponents
    below 1024.  [spec_float] gives each float by sign, mantissa and
    exponent, and its operations round to nearest, ties to even. *)
Definition prec : Z := 53.
Definition emax : Z := 1024.

(** [float(n)] for an integer [n], correctly rounded. *)
Definition float_of_Z (n : Z) : spec_float := binary_normalize prec emax n 0 false.

Definition float_div (x y : spec_float) : spec_float := SFdiv prec emax x y.
Definition float_add (x y : spec_float) : spec_float := SFadd prec emax x y.

(** The float literal [0.0]. *)
Definition float_zero : spec_float := S754_zero false.

(** The float written [k/10] with one decimal place (for instance 6.5 for
    [k = 65]): the double nearest to that decimal. *)
Definition tenths (k : Z) : spec_float := float_div (float_of_Z k) (float_of_Z 10).

(** [n / d] rounded to the nearest integer, ties to the even one
    ([0 <= n], [0 < d]). *)
Definition div_half_even (n d : Z) : Z :=
  let q := n / d in
  let r := n mod d in
  match 2 * r ?= d with
  | Lt => q
  | Gt => q + 1
  | Eq => if Z.even q then q else q + 1
  end.

(** [round(x, 1)].  CPython converts the exact binary value of [x] to the
    decimal with one digit after the point that is nearest to it (ties to
    even) and reads that decimal back as a double; the sign of a zero
    result is the sign of [x].  Infinities and NaN are returned as they
    are. *)
Definition py_round1 (x : spec_float) : spec_float :=
  match x with
  | S754_finite s m e =>
      let k :=
        if 0 <=? e then 10 * Z.pos m * 2 ^ e
        else div_half_even (10 * Z.pos m) (2 ^ (- e)) in
      float_div (binary_normalize prec emax (if s then - k else k) 0 s) (float_of_Z 10)
  | _ => x
  end.

(* ===================================================================== *)
(** * Strings *)
(* ===================================================================== *)

(** A Python [str] is a sequence of Unicode characters (code points).  It
    is given here by its UTF-8 encoding, a [string] of bytes, so that the
    string literals of the source read as they are written.  The encoding
    is the general one, which also writes the surrogates U+D800 to U+DFFF
    that a [str] can hold, in three bytes. *)
Definition byte_val (c : ascii) : Z := Z.of_nat (nat_of_ascii c).

(** The six payload bits of a continuation byte (10xxxxxx) at the start
    of [s], and the rest of [s]. *)
Definition utf8_cont (s : string) : option (Z * string) :=
  match s with
  | String c r =>
      if (128 <=? byte_val c) && (byte_val c <=? 191) then Some (byte_val c - 128, r)
      else None
  | EmptyString => None
  end.

(** The code point that starts with the byte [b0] followed by [r], and
    what is left of [r]: one byte below 128; two, three or four bytes for
    the code points from 128, 2048 and 65536 on. *)
Definition utf8_decode (b0 : Z) (r : string) : option (Z * string) :=
  if b0 <? 128 then Some (b0, r)
  else if (192 <=? b0) && (b0 <? 224) then
    '(x, r1) ← utf8_cont r;
    let cp := (b0 - 192) * 64 + x in
    if 128 <=? cp then Some (cp, r1) else None
  else if (224 <=? b0) && (b0 <? 240) then
    '(x, r1) ← utf8_cont r;
    '(y, r2) ← utf8_cont r1;
    let cp := (b0 - 224) * 4096 + x * 64 + y in
    if 2048 <=? cp then Some (cp, r2) else None
  else if (240 <=? b0) && (b0 <? 248) then
    '(x, r1) ← utf8_cont r;
    '(y, r2) ← utf8_cont r1;
    '(z, r3) ← utf8_cont r2;
    let cp := (b0 - 240) * 262144 + x * 4096 + y * 64 + z in
    if (65536 <=? cp) && (cp <=? 1114111) then Some (cp, r3) else None
  else None.

(** The first character of [s], as its code point, and the rest of [s].
    A byte that starts no encoded character, which no [str] contains, is
    read as a character of its own with a number above every code point. *)
Definition str_next (s : string) : option (Z * string) :=
  match s with
  | EmptyString => None
  | String a r =>
      match utf8_decode (byte_val a) r with
      | Some x => Some x
      | None => Some (1114112 + byte_val a, r)
      end
  end.

(** The characters of [s] in order, each as a string of one character;
    [fuel] bounds their number. *)
Fixpoint str_split (fuel : nat) (s : string) : list string :=
  match fuel with
  | O => []
  | S fuel' =>
      match str_next s with
      | Some (_, r) =>
          substring 0 (String.length s - String.length r)%nat s :: str_split fuel' r
      | None => []
      end
  end.

(* ===================================================================== *)
(** * Clock times: [strftime] and [strptime] with the format [%H:%M] *)
(* ===================================================================== *)

Definition digit_char (d : Z) : ascii := ascii_of_nat (Z.to_nat (48 + d mod 10)).

(** A number below 100 in two digits, zero padded. *)
Definition pad2 (n : Z) : string :=
  String (digit_char (n / 10)) (String (digit_char n) EmptyString).

(** [t.strftime('%H:%M')] for a [datetime.time] with hour [h], minute [m]. *)
Definition time_strftime_HM (h m : Z) : string :=
  (pad2 h ++ ":" ++ pad2 m)%string.

(** The decimal digits of Unicode (category Nd, version 14.0 of the
    character database, the one of CPython 3.11) come in runs of ten, in
    the order 0 to 9; these are the code points of the zeros: the ASCII
    digits from 48, the Arabic-Indic digits from 1632, ..., the fullwidth
    digits from 65296, ... *)
Definition decimal_zeros : list Z :=
  [ 48; 1632; 1776; 1984; 2406; 2534; 2662; 2790; 2918; 3046; 3174; 3302;
    3430; 3558; 3664; 3792; 3872; 4160; 4240; 6112; 6160; 6470; 6608; 6784;
    6800; 6992; 7088; 7232; 7248; 42528; 43216; 43264; 43472; 43504; 43600;
    44016; 65296; 66720; 68912; 69734; 69872; 69942; 70096; 70384; 70736;
    70864; 71248; 71360; 71472; 71904; 72016; 72784; 73040; 73120; 92768;
    92864; 93008; 120782; 120792; 120802; 120812; 120822; 123200; 123632;
    125264; 130032 ].

(** The value of the character [cp] as a decimal digit, which is what
    [int] reads it as; [None] when it is not a decimal digit. *)
Definition decimal_value (cp : Z) : option Z :=
  z ← find (fun z => (z <=? cp) && (cp <? z + 10)) decimal_zeros;
  Some (cp - z).

(** The pieces of the regular expressions that [strptime] builds.  Each
    reads one character at the start of [s] and gives what it read and
    the rest of [s].  [\d] matches every Unicode decimal digit; a class
    such as [[0-3]] matches the ASCII digits it lists and nothing else;
    a literal matches itself. *)
Definition match_digit (s : string) : option (Z * string) :=
  '(cp, r) ← str_next s;
  d ← decimal_value cp;
  Some (d, r).

Definition match_digit_upto (k : Z) (s : string) : option (Z * string) :=
  '(cp, r) ← str_next s;
  if (48 <=? cp) && (cp <=? 48 + k) then Some (cp - 48, r) else None.

Definition match_char (c : ascii) (s : string) : option string :=
  '(cp, r) ← str_next s;
  if cp =? byte_val c then Some r else None.

(** The regular expression for [%H]: [2[0-3]|[0-1]\d|\d].  Each
    alternative that matches at the start of [s] gives the hour, the [int]
    of the matched digits, and the rest of the string, in the order in
    which the regex engine tries them. *)
Definition match_H (s : string) : list (Z * string) :=
  option_list (r ← match_char "2" s;
               '(b, r') ← match_digit_upto 3 r;
               Some (20 + b, r')) ++
  option_list ('(a, r) ← match_digit_upto 1 s;
               '(b, r') ← match_digit r;
               Some (10 * a + b, r')) ++
  option_list (match_digit s).

(** The regular expression for [%M]: [[0-5]\d|\d]. *)
Definition match_M (s : string) : list (Z * string) :=
  option_list ('(a, r) ← match_digit_upto 5 s;
               '(b, r') ← match_digit r;
               Some (10 * a + b, r')) ++
  option_list (match_digit s).

Definition match_colon (s : string) : list string :=
  option_list (match_char ":" s).

(** All matches of [%H:%M] at the start of [s], in the engine's order of
    preference; the first is the one [re.match] reports. *)
Definition match_HM (s : string) : list (Z * Z * string) :=
  hr ← match_H s;
  r1 ← match_colon hr.2;
  mr ← match_M r1;
  [(hr.1, mr.1, mr.2)].

(** [datetime.strptime(s, '%H:%M')].  The result is a datetime on
    1900-01-01, given here by its seconds since that midnight.  No match,
    or text left after the match, raises [ValueError]. *)
Definition strptime_HM (s : string) : result Z :=
  match match_HM s with
  | (h, m, EmptyString) :: _ => Ok (h * 3600 + m * 60)
  | _ => Raise ValueError
  end.

(** Truth value of a string: [not s] holds for the empty string only. *)
Definition str_truthy (s : string) : bool :=
  match s with
  | EmptyString => false
  | String _ _ => true
  end.

(** [timedelta.total_seconds()] of a whole number of seconds. *)
Definition total_seconds (td : Z) : spec_float := float_of_Z td.

(** [calculate_sleep_hours(bed_time, wake_time)]. *)
Definition calculate_sleep_hours (bed_time wake_time : string) : spec_float :=
  if negb (str_truthy bed_time) || negb (str_truthy wake_time) then float_zero
  else
    try_except
      (bed <~ strptime_HM bed_time ;;
       wake <~ strptime_HM wake_time ;;
       let wake := if wake <? bed then wake + 86400 else wake in
       let hours := float_div (total_seconds (wake - bed)) (float_of_Z 3600) in
       Ok (py_round1 hours))
      float_zero.

(* ===================================================================== *)
(** * Python values *)
(* ===================================================================== *)

(** The values that [json.load] produces and the program stores: [None],
    booleans, integers, floats, strings, lists and dicts with string keys.
    A dict is a finite map: the order of its keys plays no role in the
    modelled code. *)
#[warnings="-register-all"]
Inductive pyval : Type :=
  | PNone
  | PBool (b : bool)
  | PInt (n : Z)
  | PFloat (f : spec_float)
  | PStr (s : string)
  | PList (l : list pyval)
  | PDict (d : gmap string pyval).

(** The empty dict [{}]. *)
Definition empty_dict : pyval := PDict ∅.

(** Truth value of a value ([if v:]). *)
Definition py_truthy (v : pyval) : bool :=
  match v with
  | PNone => false
  | PBool b => b
  | PInt n => negb (n =? 0)
  | PFloat (S754_zero _) => false
  | PFloat _ => true
  | PStr s => str_truthy s
  | PList l => match l with [] => false | _ :: _ => true end
  | PDict d => negb (bool_decide (d = ∅))
  end.

(** [f == n] for a float [f] and an integer [n]: Python compares the two
    numbers exactly. *)
Definition float_eq_int (f : spec_float) (n : Z) : bool :=
  match f with
  | S754_zero _ => n =? 0
  | S754_finite s m e =>
      let v := if s then Z.neg m else Z.pos m in
      if 0 <=? e then v * 2 ^ e =? n else v =? n * 2 ^ (- e)
  | _ => false
  end.

(** [v == n] for an arbitrary value [v] and an integer literal [n]. *)
Definition py_eq_int (v : pyval) (n : Z) : bool :=
  match v with
  | PInt m => m =? n
  | PBool b => (if b then 1 else 0) =? n
  | PFloat f => float_eq_int f n
  | _ => false
  end.

(** [d.get(key, default)] on a dict. *)
Definition dict_get (d : gmap string pyval) (key : string) (default : pyval) : pyval :=
  match d !! key with
  | Some v => v
  | None => default
  end.

(** [v.get(key, default)] on an arbitrary value: only dicts have [get]. *)
Definition py_get (v : pyval) (key : string) (default : pyval) : result pyval :=
  match v with
  | PDict d => Ok (dict_get d key default)
  | _ => Raise AttributeError
  end.

(** [v[key]] with a string key. *)
Definition py_getitem (v : pyval) (key : string) : result pyval :=
  match v with
  | PDict d =>
      match d !! key with
      | Some x => Ok x
      | None => Raise KeyError
      end
  | _ => Raise TypeError
  end.

(** The one-character strings of a string, as iterating it yields them. *)
Definition str_chars (s : string) : list pyval :=
  PStr <$> str_split (String.length s) s.

(** The elements that [for x in v] visits: the items of a list, the keys
    of a dict, the characters of a string. *)
Definition py_iter (v : pyval) : result (list pyval) :=
  match v with
  | PList l => Ok l
  | PDict d => Ok (PStr <$> (map_to_list d).*1)
  | PStr s => Ok (str_chars s)
  | _ => Raise TypeError
  end.

(** [len(v)]. *)
Definition py_len (v : pyval) : result Z :=
  match v with
  | PList l => Ok (Z.of_nat (length l))
  | PDict d => Ok (Z.of_nat (size d))
  | PStr s => Ok (Z.of_nat (length (str_chars s)))
  | _ => Raise TypeError
  end.

(** [float(n)] raises when [n] is beyond the largest double. *)
Definition int_to_float (n : Z) : result spec_float :=
  match float_of_Z n with
  | S754_infinity _ => Raise OverflowError
  | f => Ok f
  end.

(** [a + b] on numbers: booleans count as the integers 0 and 1, an
    integer added to a float is converted to a float first.  (Since
    CPython 3.12 [sum] compensates the rounding error of a run of floats;
    integer sums, which are all the day records hold, are exact.) *)
Definition py_add (a b : pyval) : result pyval :=
  let num (v : pyval) : option (Z + spec_float) :=
    match v with
    | PInt n => Some (inl n)
    | PBool c => Some (inl (if c then 1 else 0))
    | PFloat f => Some (inr f)
    | _ => None
    end in
  match num a, num b with
  | Some (inl x), Some (inl y) => Ok (PInt (x + y))
  | Some (inl x), Some (inr g) => f <~ int_to_float x ;; Ok (PFloat (float_add f g))
  | Some (inr f), Some (inl y) => g <~ int_to_float y ;; Ok (PFloat (float_add f g))
  | Some (inr f), Some (inr g) => Ok (PFloat (float_add f g))
  | _, _ => Raise TypeError
  end.

(** [sum(f(x) for x in xs)]: the generator is consumed from the left,
    each term is computed and added to the running total, which starts at
    the integer 0. *)
Fixpoint py_sum_from (f : pyval -> result pyval) (xs : list pyval) (total : pyval)
  : result pyval :=
  match xs with
  | [] => Ok total
  | x :: rest =>
      term <~ f x ;;
      total' <~ py_add total term ;;
      py_sum_from f rest total'
  end.

Definition py_sum (f : pyval -> result pyval) (xs : list pyval) : result pyval :=
  py_sum_from f xs (PInt 0).

(** [sum(1 for x in xs if cond(x))]. *)
Fixpoint py_count_from (cond : pyval -> result bool) (xs : list pyval) (total : Z)
  : result Z :=
  match xs with
  | [] => Ok total
  | x :: rest =>
      c <~ cond x ;;
      py_count_from cond rest (if c then total + 1 else total)
  end.

Definition py_count (cond : pyval -> result bool) (xs : list pyval) : result Z :=
  py_count_from cond xs 0.

(* ===================================================================== *)
(** * Calendar dates *)
(* ===================================================================== *)

(** A [datetime.date], given by its proleptic Gregorian ordinal (day 1 is
    0001-01-01).  The dates the system clock reports stay far from the
    ends of Python's range of dates; a date computed from a number of days
    that a caller chooses need not. *)
Definition pydate : Type := Z.

(** The first and the last ordinal of a [datetime.date]: 0001-01-01 and
    9999-12-31. *)
Definition date_min : pydate := 1.
Definition date_max : pydate := 3652059.

(** The largest number of days that a [timedelta] holds. *)
Definition timedelta_max_days : Z := 999999999.

(** [d - timedelta(days=i)].  Building a [timedelta] of more than
    [timedelta_max_days] days raises [OverflowError], and so does a
    difference that is no date. *)
Definition date_sub_days (d : pydate) (i : Z) : result pydate :=
  if timedelta_max_days <? Z.abs i then Raise OverflowError
  else if (date_min <=? d - i) && (d - i <=? date_max) then Ok (d - i)
  else Raise OverflowError.

Definition days_before_month (month : Z) : Z :=
  match month with
  | 1 => 0 | 2 => 31 | 3 => 59 | 4 => 90 | 5 => 120 | 6 => 151
  | 7 => 181 | 8 => 212 | 9 => 243 | 10 => 273 | 11 => 304 | _ => 334
  end.

Definition days_in_month (month : Z) : Z :=
  match month with
  | 2 => 28
  | 4 | 6 | 9 | 11 => 30
  | _ => 31
  end.

(** Year, month and day of an ordinal, as [datetime] computes them. *)
Definition ord2ymd (ordinal : pydate) : Z * Z * Z :=
  let n := ordinal - 1 in
  let n400 := n / 146097 in
  let n := n mod 146097 in
  let n100 := n / 36524 in
  let n := n mod 36524 in
  let n4 := n / 1461 in
  let n := n mod 1461 in
  let n1 := n / 365 in
  let n := n mod 365 in
  let year := n400 * 400 + 1 + n100 * 100 + n4 * 4 + n1 in
  if (n1 =? 4) || (n100 =? 4) then (year - 1, 12, 31)
  else
    let leapyear := (n1 =? 3) && (negb (n4 =? 24) || (n100 =? 3)) in
    let month := Z.shiftr (n + 50) 5 in
    let preceding :=
      days_before_month month + (if (2 <? month) && leapyear then 1 else 0) in
    if n <? preceding then
      let month := month - 1 in
      let preceding :=
        preceding - (days_in_month month + (if (month =? 2) && leapyear then 1 else 0)) in
      (year, month, n - preceding + 1)
    else (year, month, n - preceding + 1).

(** A year in four digits, zero padded. *)
Definition pad4 (n : Z) : string :=
  String (digit_char (n / 1000)) (String (digit_char (n / 100)) (pad2 n)).

(** [get_date_key(date_obj)]: [date_obj.strftime('%Y-%m-%d')]. *)
Definition get_date_key (date_obj : pydate) : string :=
  let '(y, m, d) := ord2ymd date_obj in
  (pad4 y ++ "-" ++ pad2 m ++ "-" ++ pad2 d)%string.

(** [date.weekday()]: 0 is Monday. *)
Definition weekday (d : pydate) : Z := (d + 6) mod 7.

Definition weekday_abbr (w : Z) : string :=
  match w with
  | 0 => "Mon" | 1 => "Tue" | 2 => "Wed" | 3 => "Thu"
  | 4 => "Fri" | 5 => "Sat" | _ => "Sun"
  end.

(** [d.strftime('%a %d')]. *)
Definition strftime_a_d (d : pydate) : string :=
  let '(_, _, dd) := ord2ymd d in
  (weekday_abbr (weekday d) ++ " " ++ pad2 dd)%string.

(** [range(n)] and [range(n - 1, -1, -1)]. *)
Definition py_range (n : Z) : list Z := Z.of_nat <$> seq 0 (Z.to_nat n).
Definition py_range_down (n : Z) : list Z := reverse (py_range n).

(* ===================================================================== *)
(** * The journal store *)
(* ===================================================================== *)

(** A day record is a dict from field names to values; the store [data]
    is a dict from date keys to day records. *)
Abbreviation day_record := (gmap string pyval) (only parsing).
Abbreviation store := (gmap string (gmap string pyval)) (only parsing).

(** The store as the one Python value that [json.dump] receives. *)
Definition store_value (data : store) : pyval := PDict (PDict <$> data).

(** The record that [get_day_data] creates for a day without one. *)
Definition default_day : day_record :=
  list_to_map
    [ ("workTasks", PList []);
      ("fitness", PDict (list_to_map [("duration", PFloat float_zero);
                                      ("caloriesBurnt", PInt 0)]));
      ("faceHealth", PDict (list_to_map [("items", PList [])]));
      ("diet", PDict (list_to_map [("entries", PList []);
                                   ("totalCalories", PInt 0)]));
      ("energy", PInt 3);
      ("sleep", PDict (list_to_map [("bedTime", PStr "");
                                    ("wakeTime", PStr "");
                                    ("hours", PFloat float_zero)]));
      ("nofapStreak", PInt 0) ].

(** [key in data]: a probe that reads and changes nothing. *)
Definition data_contains (key : string) : M store bool :=
  fun data => (Ok (match data !! key with Some _ => true | None => false end), data).

(** [data[key] = rec]. *)
Definition data_setitem (key : string) (rec : day_record) : M store unit :=
  fun data => (Ok tt, <[key := rec]> data).

(** [data[key]]; a missing key raises [KeyError]. *)
Definition data_getitem (key : string) : M store day_record :=
  fun data =>
    match data !! key with
    | Some rec => (Ok rec, data)
    | None => (Raise KeyError, data)
    end.

(** [get_day_data(data, date_key)].  The record it returns is the object
    held in [data]: callers that change it change the store, which the
    model writes as updates of [data] at [date_key]. *)
Definition get_day_data (date_key : string) : M store day_record :=
  present <- data_contains date_key ;;
  (if negb present then data_setitem date_key default_day else ret tt) ;;;
  data_getitem date_key.

(* ===================================================================== *)
(** * The streak calculator *)
(* ===================================================================== *)

(** The loop of [calculate_nofap_streak] over the offsets still to visit.
    The first branch counts the day, the second is the [continue] at
    offset 0, the third the [break]. *)
Fixpoint streak_loop (current : pydate) (offsets : list Z) (streak : Z)
  : M store Z :=
  match offsets with
  | [] => ret streak
  | i :: rest =>
      let check_date := current - i in
      let date_key := get_date_key check_date in
      present <- data_contains date_key ;;
      flagged <- (if present : bool
                  then rec <- data_getitem date_key ;;
                       ret (py_eq_int (dict_get rec "nofapStreak" PNone) 1)
                  else ret false) ;;
      if flagged : bool then streak_loop current rest (streak + 1)
      else if i =? 0 then streak_loop current rest streak
      else ret streak
  end.

(** [calculate_nofap_streak(data)], with [date.today()] as [today]. *)
Definition calculate_nofap_streak (today : pydate) : M store Z :=
  streak_loop today (py_range 365) 0.

(* ===================================================================== *)
(** * The analytics window *)
(* ===================================================================== *)

(** One entry of the list that [get_analytics_data] returns. *)
Record DailyStat : Type := mkStat {
  date : pydate;
  date_str : string;
  work_mins : pyval;
  cals_in : pyval;
  cals_out : pyval;
  sleep : pyval;
  energy : pyval;
  face_total : Z;
  face_done : Z;
  nofap : pyval
}.

(** Lines 130-143: the statistics of one day, computed from its record.
    The fields of the dict literal are evaluated in the order written. *)
Definition make_stat (check_date : pydate) (day_data : day_record) : result DailyStat :=
  tasks <~ py_iter (dict_get day_data "workTasks" (PList [])) ;;
  work_mins <~ py_sum (fun task => py_get task "timeSpent" (PInt 0)) tasks ;;
  cals_in <~ py_get (dict_get day_data "diet" empty_dict) "totalCalories" (PInt 0) ;;
  cals_out <~ py_get (dict_get day_data "fitness" empty_dict) "caloriesBurnt" (PInt 0) ;;
  sleep <~ py_get (dict_get day_data "sleep" empty_dict) "hours" (PInt 0) ;;
  let energy := dict_get day_data "energy" (PInt 0) in
  items <~ py_get (dict_get day_data "faceHealth" empty_dict) "items" (PList []) ;;
  face_total <~ py_len items ;;
  items' <~ py_get (dict_get day_data "faceHealth" empty_dict) "items" (PList []) ;;
  its <~ py_iter items' ;;
  face_done <~ py_count (fun item => c <~ py_get item "completed" PNone ;;
                                     Ok (py_truthy c)) its ;;
  Ok {| date := check_date;
        date_str := strftime_a_d check_date;
        work_mins := work_mins;
        cals_in := cals_in;
        cals_out := cals_out;
        sleep := sleep;
        energy := energy;
        face_total := face_total;
        face_done := face_done;
        nofap := dict_get day_data "nofapStreak" (PInt 0) |}.

(** The body of the loop of [get_analytics_data] for the offset [i].
    Line 126 evaluates [date.today()] anew in every iteration: [clock i]
    is the date that the system clock reports in the iteration for the
    offset [i].  The subtraction of [timedelta(days=i)] can raise. *)
Definition day_stat (clock : Z -> pydate) (i : Z) : M store DailyStat :=
  check_date <- lift (date_sub_days (clock i) i) ;;
  let date_key := get_date_key check_date in
  day_data <- get_day_data date_key ;;
  lift (make_stat check_date day_data).

(** The loop of [get_analytics_data]: [stats.append] for each offset. *)
Fixpoint analytics_loop (clock : Z -> pydate) (offsets : list Z) (stats : list DailyStat)
  : M store (list DailyStat) :=
  match offsets with
  | [] => ret stats
  | i :: rest =>
      stat <- day_stat clock i ;;
      analytics_loop clock rest (stats ++ [stat])
  end.

(** [get_analytics_data(data, days)]; the offsets run from [days - 1]
    down to 0, and [clock] gives the readings of [date.today()]. *)
Definition get_analytics_data (clock : Z -> pydate) (days : Z) : M store (list DailyStat) :=
  analytics_loop clock (py_range_down days) [].

(* ===================================================================== *)
(** * The data file, the session and the handlers of [main] *)
(* ===================================================================== *)

(** The file [DATA_FILE] as the program can find it: absent; present but
    impossible to open (a directory, missing permissions); or a file with
    some text. *)
Inductive file_state : Type :=
  | Missing
  | Unopenable
  | Content (text : string).

(** [os.path.exists(DATA_FILE)]. *)
Definition path_exists : M file_state bool :=
  fun fs => (Ok (match fs with Missing => false | _ => true end), fs).

(** [open(DATA_FILE, 'r')] followed by reading the text. *)
Definition open_read : M file_state string :=
  fun fs =>
    match fs with
    | Content text => (Ok text, fs)
    | _ => (Raise OSError, fs)
    end.

(** [open(DATA_FILE, 'w')]: creates or truncates the file. *)
Definition open_write : M file_state unit :=
  fun fs =>
    match fs with
    | Unopenable => (Raise OSError, fs)
    | _ => (Ok tt, Content "")
    end.

(** [f.write(text)] on the file just opened for writing. *)
Definition file_write (text : string) : M file_state unit :=
  fun fs =>
    match fs with
    | Content before => (Ok tt, Content (before ++ text))
    | _ => (Raise OSError, fs)
    end.

(** The session state of the application ([st.session_state]), the date
    the system clock reports when the page is drawn ([date.today()]) and
    the data file. *)
Record world : Type := mkWorld {
  session_data : gmap string (gmap string pyval);
  current_date : pydate;
  today : pydate;
  disk : file_state
}.

(** The world with another store, and with another state of the file. *)
Definition with_data (w : world) (data : store) : world :=
  {| session_data := data; current_date := current_date w;
     today := today w; disk := disk w |}.

Definition with_disk (w : world) (fs : file_state) : world :=
  {| session_data := session_data w; current_date := current_date w;
     today := today w; disk := fs |}.

(** A computation on [st.session_state.data] run inside the world. *)
Definition on_data {A : Type} (c : M store A) : M world A :=
  fun w => let '(r, data) := c (session_data w) in (r, with_data w data).

(** A computation on the data file run inside the world. *)
Definition on_disk {A : Type} (c : M file_state A) : M world A :=
  fun w => let '(r, fs) := c (disk w) in (r, with_disk w fs).

(** [l.append(x)]: only lists have [append]. *)
Definition py_append (l x : pyval) : result pyval :=
  match l with
  | PList xs => Ok (PList (xs ++ [x]))
  | _ => Raise AttributeError
  end.

(** [rec[field]] on a day record. *)
Definition record_getitem (rec : day_record) (field : string) : result pyval :=
  match rec !! field with
  | Some v => Ok v
  | None => Raise KeyError
  end.

(** [data[key]['diet'][field] = v], an assignment inside the [diet] dict
    of the stored record. *)
Definition set_diet_field (key field : string) (v : pyval) : M store unit :=
  fun data =>
    match data !! key with
    | Some rec =>
        match rec !! "diet" with
        | Some (PDict diet) =>
            (Ok tt, <[key := <["diet" := PDict (<[field := v]> diet)]> rec]> data)
        | Some _ => (Raise TypeError, data)
        | None => (Raise KeyError, data)
        end
    | None => (Raise KeyError, data)
    end.

(** Line 178 of [main]: the record of the day being viewed. *)
Definition main_current_day : M world day_record :=
  w <- get_state ;;
  on_data (get_day_data (get_date_key (current_date w))).

(** Line 186 of [main]: the streak shown on the page. *)
Definition main_streak : M world Z :=
  w <- get_state ;;
  on_data (calculate_nofap_streak (today w)).

(** Line 400 of [main]: the statistics behind the charts.  The loop
    reads the clock once per day of the window, so the dates it reads
    are given by [clock], one per offset. *)
Definition main_analytics (clock : Z -> pydate) (days : Z) : M world (list DailyStat) :=
  on_data (get_analytics_data clock days).

(** The food entry that the "Add Food" form appends. *)
Definition food_entry (food_name : string) (food_cals now_ms : Z) : pyval :=
  PDict (list_to_map [("id", PInt now_ms);
                      ("food", PStr food_name);
                      ("calories", PInt food_cals)]).

Section Persistence.

(** The JSON codec of the standard library: [json_loads] is [json.load]
    on the text of a file ([None] when it raises), [json_dumps] the text
    that [json.dump(_, _, indent=2)] writes. *)
Variable json_loads : string -> option pyval.
Variable json_dumps : pyval -> string.

(** [json.load(f)]. *)
Definition json_load (text : string) : result pyval :=
  match json_loads text with
  | Some v => Ok v
  | None => Raise JSONDecodeError
  end.

(** [load_data()]. *)
Definition load_data : M file_state pyval :=
  found <- path_exists ;;
  if found : bool then
    try_catch
      (text <- open_read ;; lift (json_load text))
      (ret empty_dict)
  else ret empty_dict.

(** [save_data(data)]. *)
Definition save_data (data : pyval) : M file_state unit :=
  open_write ;;; file_write (json_dumps data).

(** [update_and_save(updates)].  [day_data.update(updates)] overwrites, in
    the stored record, each top-level field that [updates] has. *)
Definition update_and_save (updates : day_record) : M world unit :=
  w <- get_state ;;
  let date_key := get_date_key (current_date w) in
  day_data <- on_data (get_day_data date_key) ;;
  let day_data := updates ∪ day_data in
  on_data (data_setitem date_key day_data) ;;;
  w' <- get_state ;;
  on_disk (save_data (store_value (session_data w'))).

(** Lines 345-354 of [main]: the "Add Food" form was submitted with
    [food_name] and [food_cals]; [now_ms] is the timestamp used as id.
    [current_day] is the record held in the store, so every change to it
    is a change of the store at the current date key. *)
Definition main_add_food (food_name : string) (food_cals now_ms : Z) : M world unit :=
  w <- get_state ;;
  let date_key := get_date_key (current_date w) in
  current_day <- main_current_day ;;
  if str_truthy food_name then
    diet <- lift (record_getitem current_day "diet") ;;
    entries <- lift (py_getitem diet "entries") ;;
    entries <- lift (py_append entries (food_entry food_name food_cals now_ms)) ;;
    on_data (set_diet_field date_key "entries" entries) ;;;
    current_day <- on_data (data_getitem date_key) ;;
    diet <- lift (record_getitem current_day "diet") ;;
    entries <- lift (py_getitem diet "entries") ;;
    es <- lift (py_iter entries) ;;
    total <- lift (py_sum (fun e => py_getitem e "calories") es) ;;
    on_data (set_diet_field date_key "totalCalories" total) ;;;
    current_day <- on_data (data_getitem date_key) ;;
    update_and_save current_day
  else ret tt.

End Persistence.

(* ===================================================================== *)
(** * More handlers of [main] *)
(* ===================================================================== *)

(** [v == s] for an arbitrary value [v] and a string [s]. *)
Definition py_eq_str (v : pyval) (s : string) : bool :=
  match v with
  | PStr s' => bool_decide (s' = s)
  | _ => false
  end.

(** [datetime.strptime(v, '%H:%M')] on an arbitrary value: anything but a
    string is a [TypeError]. *)
Definition py_strptime_HM (v : pyval) : result Z :=
  match v with
  | PStr s => strptime_HM s
  | _ => Raise TypeError
  end.

(** [data[key]['workTasks'][idx][field] = v], an assignment inside one
    task of the stored record. *)
Definition set_task_field (key : string) (idx : nat) (field : string) (v : pyval)
  : M store unit :=
  fun data =>
    match data !! key with
    | Some rec =>
        match rec !! "workTasks" with
        | Some (PList tasks) =>
            match tasks !! idx with
            | Some (PDict task) =>
                (Ok tt,
                 <[key := <["workTasks" :=
                              PList (<[idx := PDict (<[field := v]> task)]> tasks)]> rec]>
                   data)
            | Some _ => (Raise TypeError, data)
            | None => (Raise KeyError, data)
            end
        | Some _ => (Raise TypeError, data)
        | None => (Raise KeyError, data)
        end
    | None => (Raise KeyError, data)
    end.

Section Handlers.

Variable json_dumps : pyval -> string.

(** Lines 189-195 of [main]: the check-in button was pressed.  The flag
    of the viewed day is read with [current_day['nofapStreak']] and
    switched between 1 and 0. *)
Definition main_nofap_button : M world unit :=
  current_day <- main_current_day ;;
  flag <- lift (record_getitem current_day "nofapStreak") ;;
  let new_val := if py_eq_int flag 1 then 0 else 1 in
  update_and_save json_dumps {[ "nofapStreak" := PInt new_val ]}.

(** Lines 211-233 of [main]: the sleep column.  The stored times, when
    not empty, are parsed to preset the two time inputs; [bed] and [wake]
    are the hour and minute that the inputs return.  The record is
    updated when a returned time differs from the stored text. *)
Definition main_sleep_section (bed wake : Z * Z) : M world unit :=
  current_day <- main_current_day ;;
  sleep <- lift (record_getitem current_day "sleep") ;;
  stored_bed <- lift (py_getitem sleep "bedTime") ;;
  lift (if py_truthy stored_bed then py_strptime_HM stored_bed
        else strptime_HM "22:00") ;;;
  stored_wake <- lift (py_getitem sleep "wakeTime") ;;
  lift (if py_truthy stored_wake then py_strptime_HM stored_wake
        else strptime_HM "06:00") ;;;
  let bed_time := time_strftime_HM bed.1 bed.2 in
  let wake_time := time_strftime_HM wake.1 wake.2 in
  let hours := calculate_sleep_hours bed_time wake_time in
  if negb (py_eq_str stored_bed bed_time) || negb (py_eq_str stored_wake wake_time)
  then
    update_and_save json_dumps
      {[ "sleep" := PDict (list_to_map [("bedTime", PStr bed_time);
                                        ("wakeTime", PStr wake_time);
                                        ("hours", PFloat hours)]) ]}
  else ret tt.

(** Lines 291-294 of [main]: the "+ 15" button of the task in row [idx]
    of [enumerate(current_day['workTasks'])] was pressed.  A row that
    does not exist has no button. *)
Definition main_task_add_time (idx : nat) : M world unit :=
  w <- get_state ;;
  let date_key := get_date_key (current_date w) in
  current_day <- main_current_day ;;
  tasks <- lift (record_getitem current_day "workTasks") ;;
  rows <- lift (py_iter tasks) ;;
  match rows !! idx with
  | None => ret tt
  | Some task =>
      spent <- lift (py_getitem task "timeSpent") ;;
      spent <- lift (py_add spent (PInt 15)) ;;
      on_data (set_task_field date_key idx "timeSpent" spent) ;;;
      current_day <- on_data (data_getitem date_key) ;;
      update_and_save json_dumps current_day
  end.

End Handlers.

(* ===================================================================== *)
(** * Notions used to state the facts *)
(* ===================================================================== *)

#[global] Instance spec_float_eq_dec : EqDecision spec_float.
Proof. solve_decision. Defined.

#[global] Instance exn_eq_dec : EqDecision exn.
Proof. solve_decision. Defined.

#[global] Instance result_eq_dec {A : Type} `{EqDecision A} : EqDecision (result A).
Proof. solve_decision. Defined.

(** The float computed from a difference of [d] minutes, as lines 98-99
    compute it from the two datetimes. *)
Definition hours_of_minutes (d : Z) : spec_float :=
  py_round1 (float_div (total_seconds (d * 60)) (float_of_Z 3600)).

(** The number of tenths nearest to [d] minutes that [hours_of_minutes d]
    denotes, if it is one of the two candidates around [d / 6]. *)
Definition nearest_tenths (d : Z) : option Z :=
  if bool_decide (hours_of_minutes d = tenths (d / 6)) && (d - 6 * (d / 6) <=? 3)
  then Some (d / 6)
  else if bool_decide (hours_of_minutes d = tenths (d / 6 + 1)) && (3 <=? d - 6 * (d / 6))
  then Some (d / 6 + 1)
  else None.

(** The day [i] days before [today] has a record in [data] whose
    [nofapStreak] equals 1. *)
Definition day_flagged (data : store) (today : pydate) (i : Z) : bool :=
  match data !! get_date_key (today - i) with
  | Some rec => py_eq_int (dict_get rec "nofapStreak" PNone) 1
  | None => false
  end.

(** The length of the longest prefix of [offsets] on which [f] holds. *)
Fixpoint run_length (f : Z -> bool) (offsets : list Z) : nat :=
  match offsets with
  | [] => O
  | i :: rest => if f i then S (run_length f rest) else O
  end.

(** The record of a day as a reader finds it: the stored one, or the
    default for a day without a record. *)
Definition lookup_or_default (key : string) (data : store) : day_record :=
  match data !! key with
  | Some rec => rec
  | None => default_day
  end.

(** The store after a day without a record was given the default one. *)
Definition materialize (key : string) (data : store) : gmap string (gmap string pyval) :=
  match data !! key with
  | Some _ => data
  | None => <[key := default_day]> data
  end.

(** Shapes of the data model: a task is a dict whose [timeSpent], when
    present, is an integer; a face item is a dict. *)
Definition is_dict (v : pyval) : bool :=
  match v with
  | PDict _ => true
  | _ => false
  end.

Definition is_task (v : pyval) : bool :=
  match v with
  | PDict t =>
      match t !! "timeSpent" with
      | None | Some (PInt _) => true
      | Some _ => false
      end
  | _ => false
  end.

(** A field that is absent or satisfies [ok]. *)
Definition field_ok (rec : day_record) (field : string) (ok : pyval -> bool) : bool :=
  match rec !! field with
  | Some v => ok v
  | None => true
  end.

(** A day record that follows the data model where the analytics read
    it: [workTasks] a list of tasks; [diet], [fitness] and [sleep] dicts;
    [faceHealth] a dict whose [items] is a list of dicts.  Fields may be
    absent. *)
Definition analytics_ready (rec : day_record) : bool :=
  field_ok rec "workTasks"
    (fun v => match v with PList l => forallb is_task l | _ => false end)
  && field_ok rec "diet" is_dict
  && field_ok rec "fitness" is_dict
  && field_ok rec "sleep" is_dict
  && field_ok rec "faceHealth"
       (fun v => match v with
                 | PDict f =>
                     field_ok f "items"
                       (fun x => match x with PList l => forallb is_dict l | _ => false end)
                 | _ => false
                 end).

(** Every record of the store follows the data model. *)
Definition store_ready (data : store) : Prop :=
  map_Forall (fun _ rec => analytics_ready rec = true) data.

(** The window of [days] days stays within Python's range of dates: in
    the iteration for each offset [i] the clock reports a date, and the
    day [i] days before it is not before 0001-01-01. *)
Definition window_in_range (clock : Z -> pydate) (days : Z) : Prop :=
  forall i, 0 <= i < days -> date_min + i <= clock i <= date_max.

(** The statistics of a day that has the default record. *)
Definition untouched_stat (d : pydate) : DailyStat :=
  {| date := d;
     date_str := strftime_a_d d;
     work_mins := PInt 0;
     cals_in := PInt 0;
     cals_out := PInt 0;
     sleep := PFloat float_zero;
     energy := PInt 3;
     face_total := 0;
     face_done := 0;
     nofap := PInt 0 |}.

(** A store with one record, for yesterday of day 739000 (2024-04-24),
    in which the streak flag is set and one task took 30 minutes. *)
Definition sample_store : gmap string (gmap string pyval) :=
  {[ "2024-04-23" :=
       <["nofapStreak" := PInt 1]>
         (<["workTasks" := PList [PDict (list_to_map [("id", PInt 1);
                                                       ("title", PStr "write");
                                                       ("priority", PStr "High");
                                                       ("timeSpent", PInt 30);
                                                       ("completed", PBool true)])]]>
            default_day) ]}.

(** A session that starts on day 739000 with no history and no file. *)
Definition fresh_world : world :=
  {| session_data := ∅; current_date := 739000; today := 739000; disk := Missing |}.

(** A stand-in for the JSON printer; no fact below depends on what the
    printer prints. *)
Definition sample_dumps (v : pyval) : string := "{...}".

(** The seven fields of a day record. *)
Definition day_fields : gset string :=
  list_to_set ["workTasks"; "fitness"; "faceHealth"; "diet"; "energy"; "sleep";
               "nofapStreak"].

(** A default record with the streak flag set. *)
Definition flagged_day : gmap string pyval := <["nofapStreak" := PInt 1]> default_day.

(** The store in which each of the [n] days up to and including [today]
    has a flagged record. *)
Definition flagged_days (today : pydate) (n : Z) : gmap string (gmap string pyval) :=
  foldr (fun i data => <[get_date_key (today - i) := flagged_day]> data) ∅ (py_range n).

(** The [sleep] field of the record of day 739000, and one field of it. *)
Definition sleep_of (w : world) : option pyval :=
  rec ← session_data w !! "2024-04-24"; rec !! "sleep".

Definition sleep_field (w : world) (field : string) : option pyval :=
  v ← sleep_of w; match v with PDict s => s !! field | _ => None end.

(** The calories of a food entry, when it is a dict with an integer
    [calories]. *)
Definition entry_calories (e : pyval) : option Z :=
  match e with
  | PDict d =>
      match d !! "calories" with
      | Some (PInt c) => Some c
      | _ => None
      end
  | _ => None
  end.

(** The sum of the calories of a list of food entries. *)
Definition calories_sum (entries : list pyval) : Z :=
  foldr (fun e total => default 0 (entry_calories e) + total) 0 entries.

(** A test that holds on the [n] integers from [start] on. *)
Fixpoint forall_from (P : Z -> bool) (n : nat) (start : Z) : bool :=
  match n with
  | O => true
  | S n' => P start && forall_from P n' (start + 1)
  end.

(** The calendar arithmetic of [datetime] in the other direction: leap
    years, the days before a year, and the ordinal of a year, month and
    day. *)
Definition is_leap (year : Z) : bool :=
  (year mod 4 =? 0) && (negb (year mod 100 =? 0) || (year mod 400 =? 0)).

Definition days_before_year (year : Z) : Z :=
  let y := year - 1 in y * 365 + y / 4 - y / 100 + y / 400.

Definition ymd2ord (ymd : Z * Z * Z) : Z :=
  let '(year, month, day) := ymd in
  days_before_year year
  + (days_before_month month + (if (2 <? month) && is_leap year then 1 else 0))
  + day.

(** [ord2ymd] after its first division: [n400] is the number of whole
    400-year cycles before the day, [n] the day within the cycle. *)
Definition ymd_in_cycle (n400 n : Z) : Z * Z * Z :=
  let n100 := n / 36524 in
  let n := n mod 36524 in
  let n4 := n / 1461 in
  let n := n mod 1461 in
  let n1 := n / 365 in
  let n := n mod 365 in
  let year := n400 * 400 + 1 + n100 * 100 + n4 * 4 + n1 in
  if (n1 =? 4) || (n100 =? 4) then (year - 1, 12, 31)
  else
    let leapyear := (n1 =? 3) && (negb (n4 =? 24) || (n100 =? 3)) in
    let month := Z.shiftr (n + 50) 5 in
    let preceding :=
      days_before_month month + (if (2 <? month) && leapyear then 1 else 0) in
    if n <? preceding then
      let month := month - 1 in
      let preceding :=
        preceding - (days_in_month month + (if (month =? 2) && leapyear then 1 else 0)) in
      (year, month, n - preceding + 1)
    else (year, month, n - preceding + 1).

(** Within one cycle: the ordinal is recovered from year, month and day;
    the year is one of the 400, the month and the day are in range. *)
Definition cycle_day_ok (r : Z) : bool :=
  let '(y, m, d) := ymd_in_cycle 0 r in
  (ymd2ord (y, m, d) =? r + 1)
  && (1 <=? y) && (y <=? 400) && (1 <=? m) && (m <=? 12) && (1 <=? d) && (d <=? 31).

(** The minutes of a task, when it is a dict whose [timeSpent] is absent
    or an integer, and the minutes of a list of tasks. *)
Definition task_minutes (task : pyval) : Z :=
  match task with
  | PDict t =>
      match t !! "timeSpent" with
      | Some (PInt m) => m
      | _ => 0
      end
  | _ => 0
  end.

Definition minutes_sum (tasks : list pyval) : Z :=
  foldr (fun task total => task_minutes task + total) 0 tasks.

(** A day with three items in the face routine, two of them done, and
    the statistics of that day when it is day 739000. *)
Definition face_item (id : Z) (name : string) (completed : bool) : pyval :=
  PDict (list_to_map [("id", PInt id); ("name", PStr name);
                      ("completed", PBool completed)]).

Definition face_day : gmap string pyval :=
  <["faceHealth" :=
      PDict (list_to_map [("items", PList [face_item 1 "Cleanser" true;
                                           face_item 2 "Moisturizer" false;
                                           face_item 3 "Sunscreen" true])])]>
    default_day.

Definition face_stat : DailyStat :=
  {| date := 739000;
     date_str := "Wed 24";
     work_mins := PInt 0;
     cals_in := PInt 0;
     cals_out := PInt 0;
     sleep := PFloat float_zero;
     energy := PInt 3;
     face_total := 3;
     face_done := 2;
     nofap := PInt 0 |}.

(** The record of the current day as a reader finds it. *)
Definition current_record (w : world) : gmap string pyval :=
  lookup_or_default (get_date_key (current_date w)) (session_data w).


(* ===================================================================== *)
(** * Facts about clock times, dates and the sleep-hours calculation *)
(* ===================================================================== *)

(** A boolean test that holds on every element of [py_range n] holds on
    every integer from 0 up to [n]. *)
Lemma forallb_py_range (P : Z -> bool) (n : Z) :
  forallb P (py_range n) = true ->
  forall z, 0 <= z < n -> P z = true.
Proof.
  intros Hall z Hz.
  rewrite forallb_forall in Hall. apply Hall.
  unfold py_range. apply in_map_iff. exists (Z.to_nat z). split.
  - lia.
  - apply in_seq. lia.
Qed.

(** The text that [strftime('%H:%M')] prints is never empty. *)
Lemma strftime_HM_truthy (h m : Z) : str_truthy (time_strftime_HM h m) = true.
Proof. reflexivity. Qed.

(** [strptime] reads back what [strftime] printed, for each of the 1440
    times of the day. *)
Lemma strptime_strftime_HM (h m : Z) :
  0 <= h < 24 -> 0 <= m < 60 ->
  strptime_HM (time_strftime_HM h m) = Ok (h * 3600 + m * 60).
Proof.
  intros Hh Hm.
  pose (P := fun h m : Z =>
               bool_decide (strptime_HM (time_strftime_HM h m) = Ok (h * 3600 + m * 60))).
  assert (Hall : forallb (fun h => forallb (P h) (py_range 60)) (py_range 24) = true)
    by (vm_compute; reflexivity).
  pose proof (forallb_py_range _ _ Hall h Hh) as Hrow. cbv beta in Hrow.
  pose proof (forallb_py_range _ _ Hrow m Hm) as Hcell.
  unfold P in Hcell. apply bool_decide_eq_true in Hcell. exact Hcell.
Qed.

(** For each of the 1440 possible differences the result is a float
    with one decimal, at most half a tenth away from the exact value. *)
Lemma hours_of_minutes_rounds (d : Z) :
  0 <= d < 1440 ->
  exists k, hours_of_minutes d = tenths k /\ 0 <= k /\ Z.abs (6 * k - d) <= 3.
Proof.
  intros Hd.
  assert (Hall : forallb (fun d => bool_decide (is_Some (nearest_tenths d)))
                         (py_range 1440) = true)
    by (vm_compute; reflexivity).
  pose proof (forallb_py_range _ _ Hall d Hd) as Hk. cbv beta in Hk.
  apply bool_decide_eq_true in Hk. destruct Hk as [k Hk].
  unfold nearest_tenths in Hk.
  pose proof (Z.div_mod d 6 ltac:(lia)) as Hdiv.
  pose proof (Z.mod_pos_bound d 6 ltac:(lia)) as Hmod.
  assert (0 <= d / 6) by (apply Z.div_pos; lia).
  destruct (bool_decide (hours_of_minutes d = tenths (d / 6))
            && (d - 6 * (d / 6) <=? 3)) eqn:Hlow.
  - apply andb_true_iff in Hlow. destruct Hlow as [Heq Hle].
    apply bool_decide_eq_true in Heq. injection Hk as <-.
    exists (d / 6). split; [assumption | lia].
  - destruct (bool_decide (hours_of_minutes d = tenths (d / 6 + 1))
              && (3 <=? d - 6 * (d / 6))) eqn:Hhigh; [| discriminate].
    apply andb_true_iff in Hhigh. destruct Hhigh as [Heq Hle].
    apply bool_decide_eq_true in Heq. injection Hk as <-.
    exists (d / 6 + 1). split; [assumption | lia].
Qed.

(** [tenths 65] is the double 6.5, and a few readings of [strptime]. *)
Example tenths_65 : tenths 65 = S754_finite false 7318349394477056 (-50).
Proof. reflexivity. Qed.

Example strptime_single_digits : strptime_HM "7:5" = Ok (7 * 3600 + 5 * 60).
Proof. reflexivity. Qed.

Example strptime_hour_24 : strptime_HM "24:00" = Raise ValueError.
Proof. reflexivity. Qed.

Example strptime_trailing_text : strptime_HM "12:345" = Raise ValueError.
Proof. reflexivity. Qed.

(** [\d] also matches the digits of other scripts, here a fullwidth 2 and
    Arabic-Indic 3 and 5; the classes [[0-1]] and [[0-5]] do not. *)
Example strptime_fullwidth_digit : strptime_HM "1２:00" = Ok (12 * 3600).
Proof. reflexivity. Qed.

Example strptime_arabic_digits : strptime_HM "٣:٥" = Ok (3 * 3600 + 5 * 60).
Proof. reflexivity. Qed.

Example strptime_fullwidth_tens : strptime_HM "１２:３４" = Raise ValueError.
Proof. reflexivity. Qed.

Example sleep_hours_fullwidth_digit : calculate_sleep_hours "1２:00" "13:00" = tenths 10.
Proof. vm_compute. reflexivity. Qed.

(** [len] and iteration count characters, not bytes. *)
Example len_counts_characters : py_len (PStr "1２:00") = Ok 5.
Proof. reflexivity. Qed.

Example date_key_739000 : get_date_key 739000 = "2024-04-24"%string.
Proof. reflexivity. Qed.

Example date_key_leap_day : get_date_key 738945 = "2024-02-29"%string.
Proof. reflexivity. Qed.

Example date_str_739000 : strftime_a_d 739000 = "Wed 24"%string.
Proof. reflexivity. Qed.

(** C10. [calculate_sleep_hours] is a total function of two arbitrary
    strings, and it returns exactly the float 0.0 when either string is
    empty or is rejected by [strptime] with the format [%H:%M]; what
    [strptime] rejects is decided over the characters of the string, the
    decimal digits of every script included. *)
Theorem sleep_hours_zero_on_bad_input (bed_time wake_time : string) :
  bed_time = EmptyString \/ wake_time = EmptyString \/
  (exists e, strptime_HM bed_time = Raise e) \/
  (exists e, strptime_HM wake_time = Raise e) ->
  calculate_sleep_hours bed_time wake_time = float_zero.
Proof.
  intros Hbad. unfold calculate_sleep_hours.
  destruct (negb (str_truthy bed_time) || negb (str_truthy wake_time)) eqn:Hempty;
    [reflexivity |].
  apply orb_false_iff in Hempty. destruct Hempty as [Hb Hw].
  destruct Hbad as [-> | [-> | [[e He] | [e He]]]]; try discriminate.
  - rewrite He. reflexivity.
  - rewrite He. destruct (strptime_HM bed_time); reflexivity.
Qed.

Lemma sleep_hours_zero_on_bad_input_witness :
  calculate_sleep_hours "" "06:00" = float_zero /\
  calculate_sleep_hours "23:30" "6 o'clock" = float_zero /\
  calculate_sleep_hours "25:00" "06:00" = float_zero /\
  calculate_sleep_hours "２3:00" "06:00" = float_zero.
Proof.
  split; [| split; [| split]].
  - apply (sleep_hours_zero_on_bad_input "" "06:00"). left. reflexivity.
  - apply (sleep_hours_zero_on_bad_input "23:30" "6 o'clock").
    right. right. right. exists ValueError. reflexivity.
  - apply (sleep_hours_zero_on_bad_input "25:00" "06:00").
    right. right. left. exists ValueError. reflexivity.
  - apply (sleep_hours_zero_on_bad_input "２3:00" "06:00").
    right. right. left. exists ValueError. reflexivity.
Defined.

(** C5. For bed and wake times printed as HH:MM, the result is the float
    with one decimal nearest to the elapsed time in hours, where the
    elapsed time is wake - bed when wake >= bed and wake + 24h - bed
    otherwise; it is never negative. *)
Theorem sleep_hours_valid_times (h1 m1 h2 m2 : Z) :
  0 <= h1 < 24 -> 0 <= m1 < 60 -> 0 <= h2 < 24 -> 0 <= m2 < 60 ->
  let bed := h1 * 60 + m1 in
  let wake := h2 * 60 + m2 in
  let elapsed := if wake <? bed then wake + 24 * 60 - bed else wake - bed in
  exists k,
    calculate_sleep_hours (time_strftime_HM h1 m1) (time_strftime_HM h2 m2) = tenths k /\
    0 <= k /\ Z.abs (6 * k - elapsed) <= 3.
Proof.
  intros Hh1 Hm1 Hh2 Hm2. cbv zeta.
  set (elapsed := if h2 * 60 + m2 <? h1 * 60 + m1
                  then h2 * 60 + m2 + 24 * 60 - (h1 * 60 + m1)
                  else h2 * 60 + m2 - (h1 * 60 + m1)).
  assert (Hrange : 0 <= elapsed < 1440).
  { subst elapsed. destruct (Z.ltb_spec (h2 * 60 + m2) (h1 * 60 + m1)); lia. }
  assert (Hsec : (if h2 * 3600 + m2 * 60 <? h1 * 3600 + m1 * 60
                  then h2 * 3600 + m2 * 60 + 86400 else h2 * 3600 + m2 * 60)
                 - (h1 * 3600 + m1 * 60) = elapsed * 60).
  { subst elapsed.
    destruct (Z.ltb_spec (h2 * 3600 + m2 * 60) (h1 * 3600 + m1 * 60));
      destruct (Z.ltb_spec (h2 * 60 + m2) (h1 * 60 + m1)); lia. }
  clearbody elapsed.
  unfold calculate_sleep_hours.
  rewrite !strftime_HM_truthy. cbn [negb orb].
  rewrite !strptime_strftime_HM by assumption.
  cbn [result_bind try_except].
  rewrite Hsec.
  apply (hours_of_minutes_rounds elapsed Hrange).
Qed.

Lemma sleep_hours_valid_times_witness :
  calculate_sleep_hours "23:30" "06:00" = tenths 65.
Proof.
  destruct (sleep_hours_valid_times 23 30 6 0) as [k [Hk [Hpos Hnear]]]; try lia.
  change (calculate_sleep_hours "23:30" "06:00" = tenths k) in Hk.
  change (Z.abs (6 * k - 390) <= 3) in Hnear.
  assert (k = 65) as -> by lia.
  exact Hk.
Defined.

(* ===================================================================== *)
(** * Facts about the streak calculator *)
(* ===================================================================== *)

(** One iteration of the loop, read off the flag of the day visited. *)
Lemma streak_loop_cons (current : pydate) (i : Z) (rest : list Z) (streak : Z)
    (data : store) :
  streak_loop current (i :: rest) streak data =
    if day_flagged data current i then streak_loop current rest (streak + 1) data
    else if i =? 0 then streak_loop current rest streak data
    else (Ok streak, data).
Proof.
  cbn [streak_loop]. unfold bind, data_contains, data_getitem, ret, day_flagged.
  cbv zeta.
  destruct (data !! get_date_key (current - i)) as [rec |] eqn:Hrec; rewrite ?Hrec;
    [destruct (py_eq_int (dict_get rec "nofapStreak" PNone) 1) |];
    try reflexivity; destruct (i =? 0); reflexivity.
Qed.

(** The loop only reads the store. *)
Lemma streak_loop_state (current : pydate) (offsets : list Z) :
  forall (streak : Z) (data : store),
    (streak_loop current offsets streak data).2 = data.
Proof.
  induction offsets as [| i rest IH]; intros streak data; [reflexivity |].
  rewrite streak_loop_cons.
  destruct (day_flagged data current i); [apply IH |].
  destruct (i =? 0); [apply IH | reflexivity].
Qed.

(** Away from offset 0 the loop counts the flagged days up to the first
    unflagged one. *)
Lemma streak_loop_run (current : pydate) (offsets : list Z) :
  Forall (fun i => i <> 0) offsets ->
  forall (streak : Z) (data : store),
    streak_loop current offsets streak data =
      (Ok (streak + Z.of_nat (run_length (day_flagged data current) offsets)), data).
Proof.
  induction 1 as [| i rest Hi _ IH]; intros streak data.
  - cbn. unfold ret. f_equal. f_equal. lia.
  - rewrite streak_loop_cons. cbn [run_length].
    destruct (day_flagged data current i).
    + rewrite IH. f_equal. f_equal. lia.
    + apply Z.eqb_neq in Hi. rewrite Hi. f_equal. f_equal. lia.
Qed.

(** What [run_length] measures on the offsets [a, a+1, ..., a+n-1]. *)
Lemma run_length_seq (f : Z -> bool) (n : nat) :
  forall a : nat,
    let k := run_length f (Z.of_nat <$> seq a n) in
    (k <= n)%nat /\
    (forall j : nat, (a <= j < a + k)%nat -> f (Z.of_nat j) = true) /\
    ((k < n)%nat -> f (Z.of_nat (a + k)) = false).
Proof.
  induction n as [| n IH]; intros a; cbn.
  - repeat split; intros; lia.
  - destruct (f (Z.of_nat a)) eqn:Ha.
    + destruct (IH (S a)) as (Hle & Hrun & Hstop).
      repeat split.
      * lia.
      * intros j Hj. destruct (decide (j = a)) as [-> | Hne]; [exact Ha |].
        apply Hrun. lia.
      * intros Hlt. replace (a + S (run_length f (Z.of_nat <$> seq (S a) n)))%nat
          with (S a + run_length f (Z.of_nat <$> seq (S a) n))%nat by lia.
        apply Hstop. lia.
    + repeat split; intros; try lia.
      replace (a + 0)%nat with a by lia. exact Ha.
Qed.

Lemma py_range_365 : py_range 365 = 0 :: (Z.of_nat <$> seq 1 364).
Proof. reflexivity. Qed.

Lemma offsets_from_1_nonzero (n : nat) :
  Forall (fun i => i <> 0) (Z.of_nat <$> seq 1 n).
Proof.
  apply Forall_forall. intros i Hi.
  apply list_elem_of_fmap in Hi. destruct Hi as (j & -> & Hj).
  apply list_elem_of_In, in_seq in Hj. lia.
Qed.

(** The streak as the flag of today plus the run that starts yesterday. *)
Lemma streak_value (today : pydate) (data : store) :
  calculate_nofap_streak today data =
    (Ok ((if day_flagged data today 0 then 1 else 0)
         + Z.of_nat (run_length (day_flagged data today) (Z.of_nat <$> seq 1 364))),
     data).
Proof.
  unfold calculate_nofap_streak. rewrite py_range_365, streak_loop_cons.
  change (0 =? 0) with true.
  destruct (day_flagged data today 0);
    rewrite streak_loop_run by apply offsets_from_1_nonzero; reflexivity.
Qed.

(** C1, as the code has it.  The scan looks back over 365 days, the
    offsets 0..364.  The streak is the number [k] of consecutive flagged
    days that starts yesterday (every day at offsets 1..k is flagged, and
    the day at offset k+1 is absent or unflagged unless k reached 364),
    plus 1 when today is flagged; today absent or unflagged adds 0 and
    does not end the scan.  In particular: yesterday and today flagged
    and the day before not gives 2; today flagged and yesterday not gives
    1; today without a record and yesterday not flagged gives 0. *)
Theorem streak_counts_latest_run (today : pydate) (data : store) :
  (exists k : Z,
      0 <= k <= 364 /\
      (forall j, 1 <= j <= k -> day_flagged data today j = true) /\
      (k < 364 -> day_flagged data today (k + 1) = false) /\
      calculate_nofap_streak today data =
        (Ok (k + (if day_flagged data today 0 then 1 else 0)), data)) /\
  (day_flagged data today 0 = true -> day_flagged data today 1 = true ->
   day_flagged data today 2 = false ->
   (calculate_nofap_streak today data).1 = Ok 2) /\
  (day_flagged data today 0 = true -> day_flagged data today 1 = false ->
   (calculate_nofap_streak today data).1 = Ok 1) /\
  (data !! get_date_key today = None -> day_flagged data today 1 = false ->
   (calculate_nofap_streak today data).1 = Ok 0).
Proof.
  rewrite streak_value.
  pose proof (run_length_seq (day_flagged data today) 364 1) as Hrun.
  cbv zeta in Hrun.
  set (k := run_length (day_flagged data today) (Z.of_nat <$> seq 1 364)) in *.
  destruct Hrun as (Hle & Hrun & Hstop).
  assert (Hflag : forall j, 1 <= j <= Z.of_nat k -> day_flagged data today j = true).
  { intros j Hj. replace j with (Z.of_nat (Z.to_nat j)) by lia. apply Hrun. lia. }
  assert (Hend : (k < 364)%nat -> day_flagged data today (Z.of_nat k + 1) = false).
  { intros Hlt. replace (Z.of_nat k + 1) with (Z.of_nat (1 + k)) by lia.
    apply Hstop. exact Hlt. }
  split; [| split; [| split]].
  - exists (Z.of_nat k). repeat split; try lia; try assumption.
    + intros Hlt. apply Hend. lia.
    + f_equal. f_equal. lia.
  - intros H0 H1 H2. rewrite H0. cbn [fst]. f_equal.
    assert (k = 1%nat) as ->; [| reflexivity].
    destruct (decide (k = 0%nat)) as [Hk | Hk].
    { specialize (Hend ltac:(lia)).
      replace (Z.of_nat k + 1) with 1 in Hend by lia. congruence. }
    destruct (decide (2 <= k)%nat) as [Hk2 | Hk2]; [| lia].
    rewrite (Hflag 2) in H2 by lia. discriminate.
  - intros H0 H1. rewrite H0. cbn [fst]. f_equal.
    assert (k = 0%nat) as ->; [| reflexivity].
    destruct (decide (1 <= k)%nat) as [Hk | Hk]; [| lia].
    rewrite (Hflag 1) in H1 by lia. discriminate.
  - intros Hnone H1.
    assert (H0 : day_flagged data today 0 = false).
    { unfold day_flagged. replace (today - 0) with today by lia.
      rewrite Hnone. reflexivity. }
    rewrite H0. cbn [fst]. f_equal.
    assert (k = 0%nat) as ->; [| reflexivity].
    destruct (decide (1 <= k)%nat) as [Hk | Hk]; [| lia].
    rewrite (Hflag 1) in H1 by lia. discriminate.
Qed.

(** The scan ends after 365 days: in a store where the 366 days up to
    today are all flagged and the day before them has no record, the
    latest run of flagged days is 366 days long, and the calculator
    returns 365. *)
Lemma streak_stops_after_365_days :
  (forall i, 0 <= i < 366 -> day_flagged (flagged_days 739000 366) 739000 i = true) /\
  day_flagged (flagged_days 739000 366) 739000 366 = false /\
  (calculate_nofap_streak 739000 (flagged_days 739000 366)).1 = Ok 365 /\
  (calculate_nofap_streak 739000 (flagged_days 739000 366)).1 <> Ok 366.
Proof.
  assert (Hrun : (calculate_nofap_streak 739000 (flagged_days 739000 366)).1 = Ok 365)
    by (vm_compute; reflexivity).
  split; [| split; [| split]].
  - apply forallb_py_range. vm_compute. reflexivity.
  - vm_compute. reflexivity.
  - exact Hrun.
  - rewrite Hrun. discriminate.
Qed.

(** The three cases of the streak on small stores: the two days up to
    today flagged; only today flagged; only the day before yesterday
    flagged, seen from a today without a record. *)
Example streak_two_days :
  (calculate_nofap_streak 739000 (flagged_days 739000 2)).1 = Ok 2.
Proof. vm_compute. reflexivity. Qed.

Example streak_today_only :
  (calculate_nofap_streak 739000 (flagged_days 739000 1)).1 = Ok 1.
Proof. vm_compute. reflexivity. Qed.

Example streak_gap_yesterday :
  (calculate_nofap_streak 739002 (flagged_days 739000 1)).1 = Ok 0.
Proof. vm_compute. reflexivity. Qed.

(** Today without a record does not end the scan: yesterday still
    counts. *)
Example streak_today_unset :
  (calculate_nofap_streak 739001 (flagged_days 739000 2)).1 = Ok 2.
Proof. vm_compute. reflexivity. Qed.

(** C4. Computing the streak leaves the store exactly as it was: no key
    is added and no record changes. *)
Theorem streak_leaves_store_unchanged (today : pydate) (data : store) :
  (calculate_nofap_streak today data).2 = data /\
  dom (calculate_nofap_streak today data).2 = dom data /\
  forall w : world, (main_streak w).2 = w.
Proof.
  assert (Hsame : forall t (d : store), (calculate_nofap_streak t d).2 = d)
    by (intros t d; apply streak_loop_state).
  split; [apply Hsame |]. split; [rewrite Hsame; reflexivity |].
  intros [data' cur clock fs]. unfold main_streak, bind, get_state, on_data. cbn.
  pose proof (Hsame clock data') as Hw.
  destruct (calculate_nofap_streak clock data') as [r d]. cbn in Hw. subst d.
  destruct r; reflexivity.
Qed.

(* ===================================================================== *)
(** * Facts about the journal store and the analytics window *)
(* ===================================================================== *)

(** [get_day_data] returns the stored record, or the default one after
    inserting it. *)
Lemma get_day_data_spec (key : string) (data : store) :
  get_day_data key data = (Ok (lookup_or_default key data), materialize key data).
Proof.
  unfold get_day_data, bind, data_contains, data_setitem, data_getitem, ret,
    lookup_or_default, materialize.
  destruct (data !! key) as [rec |] eqn:Hrec; cbn.
  - rewrite Hrec. reflexivity.
  - rewrite lookup_insert_eq. reflexivity.
Qed.

Lemma materialize_lookup (key key' : string) (data : store) :
  materialize key' data !! key =
    if decide (key = key') then Some (lookup_or_default key data) else data !! key.
Proof.
  unfold materialize, lookup_or_default.
  destruct (decide (key = key')) as [-> | Hne].
  - destruct (data !! key') as [rec |] eqn:Hrec; [exact Hrec | apply lookup_insert_eq].
  - destruct (data !! key'); [reflexivity |].
    apply lookup_insert_ne. congruence.
Qed.

(** Giving a day its default record does not change what a reader finds
    for any day. *)
Lemma lookup_or_default_materialize (key key' : string) (data : store) :
  lookup_or_default key (materialize key' data) = lookup_or_default key data.
Proof.
  unfold lookup_or_default at 1. rewrite materialize_lookup.
  destruct (decide (key = key')); reflexivity.
Qed.

Lemma default_day_ready : analytics_ready default_day = true.
Proof. reflexivity. Qed.

Lemma materialize_ready (key : string) (data : store) :
  store_ready data -> store_ready (materialize key data).
Proof.
  intros Hready. unfold materialize.
  destruct (data !! key); [exact Hready |].
  apply map_Forall_insert_2; [exact default_day_ready | exact Hready].
Qed.

Lemma lookup_or_default_ready (key : string) (data : store) :
  store_ready data -> analytics_ready (lookup_or_default key data) = true.
Proof.
  intros Hready. unfold lookup_or_default.
  destruct (data !! key) as [rec |] eqn:Hrec; [| exact default_day_ready].
  exact (map_Forall_lookup_1 _ _ _ _ Hready Hrec).
Qed.

(** Summing the minutes of well-formed tasks gives an integer. *)
Lemma py_sum_tasks (tasks : list pyval) :
  forallb is_task tasks = true ->
  forall total : Z,
    exists n, py_sum_from (fun task => py_get task "timeSpent" (PInt 0)) tasks (PInt total)
              = Ok (PInt n).
Proof.
  induction tasks as [| task rest IH]; intros Hall total; [exists total; reflexivity |].
  cbn in Hall. apply andb_true_iff in Hall. destruct Hall as [Htask Hrest].
  destruct task as [| | | | | | t]; try discriminate.
  cbn. unfold dict_get. cbn in Htask.
  destruct (t !! "timeSpent") as [[| | m | | | |] |]; try discriminate; cbn; apply IH, Hrest.
Qed.

(** Counting the completed items of a list of dicts succeeds. *)
Lemma py_count_items (items : list pyval) :
  forallb is_dict items = true ->
  forall total : Z,
    exists n, py_count_from (fun item => c <~ py_get item "completed" PNone ;;
                                         Ok (py_truthy c)) items total = Ok n.
Proof.
  induction items as [| item rest IH]; intros Hall total; [exists total; reflexivity |].
  cbn in Hall. apply andb_true_iff in Hall. destruct Hall as [Hitem Hrest].
  destruct item; try discriminate. cbn. apply IH, Hrest.
Qed.

(** The three kinds of field that [make_stat] reads, each on a record
    that follows the data model. *)
Lemma work_tasks_ready (rec : day_record) :
  field_ok rec "workTasks"
    (fun v => match v with PList l => forallb is_task l | _ => false end) = true ->
  exists tasks n,
    py_iter (dict_get rec "workTasks" (PList [])) = Ok tasks /\
    py_sum (fun task => py_get task "timeSpent" (PInt 0)) tasks = Ok (PInt n).
Proof.
  unfold field_ok, dict_get. intros Hok.
  destruct (rec !! "workTasks") as [v |].
  - destruct v as [| | | | | tasks |]; try discriminate.
    destruct (py_sum_tasks tasks Hok 0) as [n Hn].
    exists tasks, n. split; [reflexivity | exact Hn].
  - exists [], 0. split; reflexivity.
Qed.

Lemma dict_field_ready (rec : day_record) (field key : string) (dflt : pyval) :
  field_ok rec field is_dict = true ->
  exists v, py_get (dict_get rec field empty_dict) key dflt = Ok v.
Proof.
  unfold field_ok, dict_get. intros Hok.
  destruct (rec !! field) as [v |].
  - destruct v; try discriminate. eexists. reflexivity.
  - eexists. reflexivity.
Qed.

Lemma face_items_ready (rec : day_record) :
  field_ok rec "faceHealth"
    (fun v => match v with
              | PDict f =>
                  field_ok f "items"
                    (fun x => match x with PList l => forallb is_dict l | _ => false end)
              | _ => false
              end) = true ->
  exists items its n c,
    py_get (dict_get rec "faceHealth" empty_dict) "items" (PList []) = Ok items /\
    py_len items = Ok n /\
    py_iter items = Ok its /\
    py_count (fun item => c <~ py_get item "completed" PNone ;; Ok (py_truthy c)) its = Ok c.
Proof.
  unfold field_ok, dict_get. intros Hok.
  destruct (rec !! "faceHealth") as [v |].
  - destruct v as [| | | | | | face]; try discriminate.
    cbn [py_get]. unfold dict_get.
    destruct (face !! "items") as [x |].
    + destruct x as [| | | | | items |]; try discriminate.
      destruct (py_count_items items Hok 0) as [c Hc].
      exists (PList items), items, (Z.of_nat (length items)), c.
      repeat split; try reflexivity. exact Hc.
    + exists (PList []), [], 0, 0. repeat split; reflexivity.
  - exists (PList []), [], 0, 0. repeat split; reflexivity.
Qed.

(** On a record that follows the data model the statistics are computed
    without an exception. *)
Lemma make_stat_ready (d : pydate) (rec : day_record) :
  analytics_ready rec = true -> exists stat, make_stat d rec = Ok stat.
Proof.
  unfold analytics_ready. intros Hready.
  repeat (apply andb_true_iff in Hready; destruct Hready as [Hready ?]).
  destruct (work_tasks_ready rec Hready) as (tasks & n & Htasks & Hsum).
  destruct (dict_field_ready rec "diet" "totalCalories" (PInt 0)) as [cin Hcin];
    [assumption |].
  destruct (dict_field_ready rec "fitness" "caloriesBurnt" (PInt 0)) as [cout Hcout];
    [assumption |].
  destruct (dict_field_ready rec "sleep" "hours" (PInt 0)) as [hrs Hhrs];
    [assumption |].
  destruct (face_items_ready rec) as (items & its & total & done & Hitems & Hlen & Hits & Hdone);
    [assumption |].
  unfold make_stat.
  rewrite Htasks. cbn [result_bind]. rewrite Hsum. cbn [result_bind].
  rewrite Hcin. cbn [result_bind]. rewrite Hcout. cbn [result_bind].
  rewrite Hhrs. cbn [result_bind]. rewrite Hitems. cbn [result_bind].
  rewrite Hlen. cbn [result_bind]. rewrite Hits. cbn [result_bind].
  rewrite Hdone. cbn [result_bind].
  eexists. reflexivity.
Qed.

(** The statistics carry the date they were computed for. *)
Lemma make_stat_date (d : pydate) (rec : day_record) (stat : DailyStat) :
  make_stat d rec = Ok stat -> date stat = d.
Proof.
  unfold make_stat.
  repeat match goal with
         | |- result_bind ?r _ = _ -> _ => destruct r; cbn [result_bind]
         end;
    try discriminate.
  intros [= <-]. reflexivity.
Qed.

Lemma make_stat_default (d : pydate) : make_stat d default_day = Ok (untouched_stat d).
Proof. reflexivity. Qed.

(** A subtraction that stays within the range of dates does not raise. *)
Lemma date_sub_days_ok (d : pydate) (i : Z) :
  0 <= i -> date_min + i <= d <= date_max -> date_sub_days d i = Ok (d - i).
Proof.
  unfold date_sub_days, timedelta_max_days, date_min, date_max. intros Hi Hd.
  destruct (Z.ltb_spec 999999999 (Z.abs i)); [lia |].
  destruct (Z.leb_spec 1 (d - i)); [| lia].
  destruct (Z.leb_spec (d - i) 3652059); [reflexivity | lia].
Qed.

(** One iteration of the loop of [get_analytics_data]. *)
Lemma day_stat_spec (clock : Z -> pydate) (i : Z) (data : store) :
  0 <= i -> date_min + i <= clock i <= date_max ->
  day_stat clock i data =
    (make_stat (clock i - i) (lookup_or_default (get_date_key (clock i - i)) data),
     materialize (get_date_key (clock i - i)) data).
Proof.
  intros Hi Hd. unfold day_stat, bind, lift.
  rewrite (date_sub_days_ok _ _ Hi Hd). cbv zeta.
  rewrite get_day_data_spec. reflexivity.
Qed.

(** An iteration whose date is out of range ends the loop with the
    exception, before the store is touched. *)
Lemma analytics_loop_raises (clock : Z -> pydate) (i : Z) (rest : list Z)
    (stats : list DailyStat) (data : store) (e : exn) :
  date_sub_days (clock i) i = Raise e ->
  analytics_loop clock (i :: rest) stats data = (Raise e, data).
Proof.
  intros Hsub. cbn [analytics_loop]. unfold bind, day_stat, lift.
  rewrite Hsub. reflexivity.
Qed.

(** The whole loop: the final store has every visited day materialized,
    and each new entry is the statistics of the record a reader finds in
    the initial store. *)
Lemma analytics_loop_spec (clock : Z -> pydate) (offsets : list Z) :
  forall (stats : list DailyStat) (data : store),
    store_ready data ->
    Forall (fun i => 0 <= i /\ date_min + i <= clock i <= date_max) offsets ->
    exists new,
      analytics_loop clock offsets stats data =
        (Ok (stats ++ new),
         foldl (fun d i => materialize (get_date_key (clock i - i)) d) data offsets) /\
      Forall2 (fun i stat =>
                 make_stat (clock i - i)
                   (lookup_or_default (get_date_key (clock i - i)) data) = Ok stat)
              offsets new.
Proof.
  induction offsets as [| i rest IH]; intros stats data Hready Hrange.
  - exists []. split; [| constructor]. cbn. unfold ret. rewrite app_nil_r. reflexivity.
  - apply Forall_cons in Hrange. destruct Hrange as [[Hi Hd] Hrange].
    cbn [analytics_loop foldl]. unfold bind. rewrite (day_stat_spec _ _ _ Hi Hd).
    destruct (make_stat_ready (clock i - i) _
                (lookup_or_default_ready (get_date_key (clock i - i)) data Hready))
      as [stat Hstat].
    rewrite Hstat.
    destruct (IH (stats ++ [stat]) _
                (materialize_ready (get_date_key (clock i - i)) _ Hready) Hrange)
      as (new & Hloop & Hnew).
    exists (stat :: new). split.
    + rewrite Hloop, <- app_assoc. reflexivity.
    + constructor; [exact Hstat |].
      eapply Forall2_impl; [exact Hnew |].
      intros j st. cbv beta. rewrite lookup_or_default_materialize. auto.
Qed.

Lemma py_range_down_length (n : Z) : length (py_range_down n) = Z.to_nat n.
Proof.
  unfold py_range_down, py_range. rewrite length_reverse, length_fmap, length_seq.
  reflexivity.
Qed.

Lemma py_range_down_lookup (n : Z) (j : nat) (i : Z) :
  py_range_down n !! j = Some i -> i = n - 1 - Z.of_nat j /\ 0 <= i < n.
Proof.
  unfold py_range_down, py_range. intros Hj.
  apply reverse_lookup_Some in Hj. destruct Hj as [Hj Hlt].
  rewrite length_fmap, length_seq in Hj, Hlt.
  rewrite list_lookup_fmap in Hj.
  destruct (seq 0 (Z.to_nat n) !! (Z.to_nat n - S j)%nat) as [m |] eqn:Hm; [| discriminate].
  apply lookup_seq in Hm. injection Hj as <-. lia.
Qed.

Lemma py_range_down_elem (days i : Z) : 0 <= i < days -> i ∈ py_range_down days.
Proof.
  intros Hi. unfold py_range_down, py_range.
  apply elem_of_reverse, list_elem_of_fmap. exists (Z.to_nat i). split; [lia |].
  apply list_elem_of_In, in_seq. lia.
Qed.

Lemma py_range_down_bounds (days i : Z) : i ∈ py_range_down days -> 0 <= i < days.
Proof.
  intros Hin. apply list_elem_of_lookup in Hin. destruct Hin as [j Hj].
  apply py_range_down_lookup in Hj. tauto.
Qed.

(** [range(n - 1, -1, -1)] starts at [n - 1]. *)
Lemma py_range_down_first (n : Z) :
  0 < n -> py_range_down n = (n - 1) :: py_range_down (n - 1).
Proof.
  intros Hn. unfold py_range_down, py_range.
  replace (Z.to_nat n) with (S (Z.to_nat (n - 1))) by lia.
  rewrite seq_S, fmap_app, reverse_app. cbn [fmap list_fmap reverse rev_append app].
  rewrite Nat.add_0_l, Z2Nat.id by lia. reflexivity.
Qed.

Lemma sample_store_ready : store_ready sample_store.
Proof.
  unfold sample_store. apply map_Forall_insert_2; [reflexivity | apply map_Forall_empty].
Qed.

(** The clock of a call during which the date is day 739000 throughout
    keeps a window of a week within the range of dates. *)
Lemma steady_week_in_range : window_in_range (fun _ => 739000) 7.
Proof. intros i Hi. unfold date_min, date_max. lia. Qed.

(** The analytics of a store that follows the data model, for a window
    within the range of dates: the call returns, and its entries are the
    statistics of the records a reader finds, for the offsets
    [days-1, ..., 0]. *)
Lemma get_analytics_data_spec (clock : Z -> pydate) (days : Z) (data : store) :
  store_ready data ->
  window_in_range clock days ->
  exists stats,
    get_analytics_data clock days data =
      (Ok stats,
       foldl (fun d i => materialize (get_date_key (clock i - i)) d) data
             (py_range_down days)) /\
    Forall2 (fun i stat =>
               make_stat (clock i - i)
                 (lookup_or_default (get_date_key (clock i - i)) data) = Ok stat)
            (py_range_down days) stats.
Proof.
  intros Hready Hrange. unfold get_analytics_data.
  assert (Hall : Forall (fun i => 0 <= i /\ date_min + i <= clock i <= date_max)
                        (py_range_down days)).
  { apply Forall_forall. intros i Hin. apply py_range_down_bounds in Hin.
    split; [lia | exact (Hrange i Hin)]. }
  destruct (analytics_loop_spec clock (py_range_down days) [] data Hready Hall)
    as (new & Hloop & Hnew).
  exists new. split; [exact Hloop | exact Hnew].
Qed.

(** A record outside the data model makes the call raise: here [diet] is
    a number, and [.get] on it is an [AttributeError]. *)
Example analytics_raises_on_malformed_record :
  (get_analytics_data (fun _ => 739000) 1
     {[ "2024-04-24" := <["diet" := PInt 5]> default_day ]}).1
  = Raise AttributeError.
Proof. vm_compute. reflexivity. Qed.

(** C2, as the code has it.  For a store that follows the data model and
    a positive number of days whose window stays within the range of
    dates, the call returns exactly [days] entries, oldest first.  The
    entry for the offset [i] is dated [i] days before the date that the
    clock reported in its iteration, and the last entry is dated with the
    last reading, today.  The dates are strictly increasing when the clock
    does not go back during the call (the iteration for the offset [i + 1]
    comes before the one for [i]), and they are consecutive when the clock
    reports one date throughout the call. *)
Theorem analytics_window_shape (clock : Z -> pydate) (days : Z) (data : store) :
  store_ready data -> 0 < days ->
  window_in_range clock days ->
  exists stats data',
    get_analytics_data clock days data = (Ok stats, data') /\
    Z.of_nat (length stats) = days /\
    (forall (j : nat) stat,
        stats !! j = Some stat ->
        date stat = clock (days - 1 - Z.of_nat j) - (days - 1 - Z.of_nat j)) /\
    (exists stat, last stats = Some stat /\ date stat = clock 0) /\
    ((forall i, 0 <= i -> i + 1 < days -> clock (i + 1) <= clock i) ->
     forall (j : nat) a b,
       stats !! j = Some a -> stats !! S j = Some b -> date a < date b) /\
    (forall today,
        (forall i, 0 <= i < days -> clock i = today) ->
        (forall (j : nat) stat,
            stats !! j = Some stat -> date stat = today - (days - 1) + Z.of_nat j) /\
        (forall (j : nat) a b,
            stats !! j = Some a -> stats !! S j = Some b -> date b = date a + 1) /\
        (exists stat, last stats = Some stat /\ date stat = today)).
Proof.
  intros Hready Hdays Hrange.
  destruct (get_analytics_data_spec clock days data Hready Hrange)
    as (stats & Hrun & Hstats).
  assert (Hlen : length stats = Z.to_nat days).
  { rewrite <- (Forall2_length _ _ _ Hstats). apply py_range_down_length. }
  assert (Hdate : forall (j : nat) stat,
             stats !! j = Some stat ->
             date stat = clock (days - 1 - Z.of_nat j) - (days - 1 - Z.of_nat j)).
  { intros j stat Hj.
    destruct (Forall2_lookup_r _ _ _ _ _ Hstats Hj) as (i & Hi & Hmake).
    apply py_range_down_lookup in Hi. destruct Hi as [-> _].
    exact (make_stat_date _ _ _ Hmake). }
  assert (Hlast : exists stat, last stats = Some stat /\ date stat = clock 0).
  { rewrite last_lookup.
    destruct (lookup_lt_is_Some_2 stats (pred (length stats))) as [stat Hstat]; [lia |].
    exists stat. split; [exact Hstat |].
    rewrite (Hdate _ _ Hstat).
    replace (days - 1 - Z.of_nat (pred (length stats))) with 0 by lia.
    lia. }
  exists stats, (foldl (fun d i => materialize (get_date_key (clock i - i)) d) data
                       (py_range_down days)).
  split; [exact Hrun |]. split; [lia |]. split; [exact Hdate |].
  split; [exact Hlast |]. split.
  - intros Hforward j a b Ha Hb.
    pose proof (lookup_lt_Some _ _ _ Hb) as Hj.
    rewrite (Hdate _ _ Ha), (Hdate _ _ Hb).
    pose proof (Hforward (days - 1 - Z.of_nat (S j)) ltac:(lia) ltac:(lia)) as Hclock.
    replace (days - 1 - Z.of_nat (S j) + 1) with (days - 1 - Z.of_nat j) in Hclock by lia.
    lia.
  - intros today Hsteady.
    assert (Hdate' : forall (j : nat) stat,
               stats !! j = Some stat -> date stat = today - (days - 1) + Z.of_nat j).
    { intros j stat Hj. pose proof (lookup_lt_Some _ _ _ Hj) as Hlt.
      rewrite (Hdate _ _ Hj), (Hsteady (days - 1 - Z.of_nat j)) by lia. lia. }
    split; [exact Hdate' |]. split.
    + intros j a b Ha Hb. rewrite (Hdate' _ _ Ha), (Hdate' _ _ Hb). lia.
    + destruct Hlast as (stat & Hstat & Hd). exists stat. split; [exact Hstat |].
      rewrite Hd. apply Hsteady. lia.
Qed.

Lemma analytics_window_shape_witness :
  exists stats data',
    get_analytics_data (fun _ => 739000) 7 sample_store = (Ok stats, data') /\
    Z.of_nat (length stats) = 7 /\
    (forall (j : nat) stat,
        stats !! j = Some stat -> date stat = 739000 - (7 - 1) + Z.of_nat j) /\
    (forall (j : nat) a b,
        stats !! j = Some a -> stats !! S j = Some b ->
        date a < date b /\ date b = date a + 1) /\
    (exists stat, last stats = Some stat /\ date stat = 739000).
Proof.
  destruct (analytics_window_shape (fun _ => 739000) 7 sample_store
              sample_store_ready ltac:(lia) steady_week_in_range)
    as (stats & data' & Hrun & Hlen & _ & _ & Hforward & Hsteady).
  destruct (Hsteady 739000 ltac:(reflexivity)) as (Hdate & Hnext & Hlast).
  exists stats, data'.
  split; [exact Hrun |]. split; [exact Hlen |]. split; [exact Hdate |].
  split; [| exact Hlast].
  intros j a b Ha Hb. split.
  - apply (Hforward ltac:(intros; lia) j a b Ha Hb).
  - exact (Hnext j a b Ha Hb).
Defined.

(** C2 as stated fails in two ways.  A day count larger than the ordinal
    of today reaches back before 0001-01-01: on day 739000 the call for
    739001 days raises [OverflowError] in its first iteration and returns
    no entries.  And the clock is read in every iteration: when midnight
    passes before the last iteration of a call for two days, the two
    entries are dated 738999 and 739001, which are not consecutive. *)
Lemma analytics_window_overflow_and_midnight :
  get_analytics_data (fun _ => 739000) 739001 ∅ = (Raise OverflowError, ∅) /\
  (get_analytics_data (fun i => if i =? 0 then 739001 else 739000) 2 ∅).1
    = Ok [untouched_stat 738999; untouched_stat 739001] /\
  date (untouched_stat 739001) <> date (untouched_stat 738999) + 1.
Proof.
  split; [| split].
  - unfold get_analytics_data.
    rewrite (py_range_down_first 739001) by lia.
    apply analytics_loop_raises. reflexivity.
  - vm_compute. reflexivity.
  - cbn. lia.
Qed.

(** C6, as the code has it.  In a window within the range of dates of a
    store that follows the data model every day of the window has its
    entry, dated by the clock reading of its iteration, and the entry of
    a day that had no record shows zero work minutes, calories in and out,
    sleep hours, face items (total and done) and streak flag, and the
    default energy 3. *)
Theorem untouched_day_stats (clock : Z -> pydate) (days : Z) (data : store) :
  store_ready data ->
  window_in_range clock days ->
  exists stats data',
    get_analytics_data clock days data = (Ok stats, data') /\
    (forall i, 0 <= i < days -> exists stat, stat ∈ stats /\ date stat = clock i - i) /\
    forall stat,
      stat ∈ stats -> data !! get_date_key (date stat) = None ->
      work_mins stat = PInt 0 /\ cals_in stat = PInt 0 /\ cals_out stat = PInt 0 /\
      sleep stat = PFloat float_zero /\ energy stat = PInt 3 /\
      face_total stat = 0 /\ face_done stat = 0 /\ nofap stat = PInt 0.
Proof.
  intros Hready Hrange.
  destruct (get_analytics_data_spec clock days data Hready Hrange)
    as (stats & Hrun & Hstats).
  eexists stats, _. split; [exact Hrun |]. split.
  - intros i Hi.
    pose proof (py_range_down_elem days i Hi) as Hin.
    apply list_elem_of_lookup in Hin. destruct Hin as [j Hj].
    destruct (Forall2_lookup_l _ _ _ _ _ Hstats Hj) as (stat & Hstat & Hmake).
    exists stat. split.
    + apply list_elem_of_lookup. exists j. exact Hstat.
    + exact (make_stat_date _ _ _ Hmake).
  - intros stat Hin Hnone.
    apply list_elem_of_lookup in Hin. destruct Hin as [j Hj].
    destruct (Forall2_lookup_r _ _ _ _ _ Hstats Hj) as (i & _ & Hmake).
    pose proof (make_stat_date _ _ _ Hmake) as Hdate.
    rewrite <- Hdate in Hmake. unfold lookup_or_default in Hmake.
    rewrite Hnone, make_stat_default in Hmake.
    injection Hmake as <-. repeat split; reflexivity.
Qed.

Lemma untouched_day_stats_witness :
  exists stats data',
    get_analytics_data (fun _ => 739000) 7 sample_store = (Ok stats, data') /\
    (forall i, 0 <= i < 7 -> exists stat, stat ∈ stats /\ date stat = 739000 - i) /\
    forall stat,
      stat ∈ stats -> sample_store !! get_date_key (date stat) = None ->
      work_mins stat = PInt 0 /\ cals_in stat = PInt 0 /\ cals_out stat = PInt 0 /\
      sleep stat = PFloat float_zero /\ energy stat = PInt 3 /\
      face_total stat = 0 /\ face_done stat = 0 /\ nofap stat = PInt 0.
Proof.
  apply (untouched_day_stats (fun _ => 739000) 7 sample_store).
  - exact sample_store_ready.
  - exact steady_week_in_range.
Defined.

(** The energy of an untouched day is not zero: with an empty store, the
    one-day window holds a single entry, for a day without a record, and
    its energy is 3. *)
Lemma untouched_day_energy_not_zero :
  (∅ : gmap string (gmap string pyval)) !! get_date_key 739000 = None /\
  (get_analytics_data (fun _ => 739000) 1 ∅).1 = Ok [untouched_stat 739000] /\
  energy (untouched_stat 739000) = PInt 3 /\
  energy (untouched_stat 739000) <> PInt 0.
Proof.
  split; [reflexivity |]. split; [vm_compute; reflexivity |].
  split; [reflexivity | discriminate].
Qed.

(* ===================================================================== *)
(** * Facts about loading, merging and saving *)
(* ===================================================================== *)

Lemma bind_ok {S A B : Type} (c : M S A) (k : A -> M S B) (s s' : S) (a : A) :
  c s = (Ok a, s') -> bind c k s = k a s'.
Proof. intros Hc. unfold bind. rewrite Hc. reflexivity. Qed.

Lemma on_data_run {A : Type} (c : M store A) (w : world) (r : result A) (data : store) :
  c (session_data w) = (r, data) -> on_data c w = (r, with_data w data).
Proof. intros Hc. unfold on_data. rewrite Hc. reflexivity. Qed.

Lemma insert_materialize (key : string) (rec : day_record) (data : store) :
  <[key := rec]> (materialize key data) = <[key := rec]> data.
Proof.
  unfold materialize. destruct (data !! key); [reflexivity | apply insert_insert_eq].
Qed.

Section PersistenceFacts.

Variable json_loads : string -> option pyval.
Variable json_dumps : pyval -> string.

(** Saving replaces the text of the file, unless the file cannot be
    opened. *)
Lemma save_data_spec (v : pyval) (fs : file_state) :
  save_data json_dumps v fs =
    match fs with
    | Unopenable => (Raise OSError, Unopenable)
    | _ => (Ok tt, Content (json_dumps v))
    end.
Proof. destruct fs; reflexivity. Qed.

(** What [update_and_save] does to the world, in one equation. *)
Lemma update_and_save_spec (updates : day_record) (w : world) :
  let key := get_date_key (current_date w) in
  let merged :=
    <[key := updates ∪ lookup_or_default key (session_data w)]> (session_data w) in
  update_and_save json_dumps updates w =
    on_disk (save_data json_dumps (store_value merged)) (with_data w merged).
Proof.
  cbv zeta. unfold update_and_save.
  rewrite (bind_ok _ _ w w w) by reflexivity.
  erewrite bind_ok by (apply on_data_run, get_day_data_spec).
  erewrite bind_ok by (apply on_data_run; reflexivity).
  erewrite bind_ok by reflexivity.
  cbn [with_data session_data current_date today disk].
  rewrite insert_materialize. reflexivity.
Qed.

(** C9. [load_data] never raises and leaves the file as it is.  It
    yields the empty dict when the file is missing, cannot be opened, or
    holds text that [json.load] rejects; otherwise the parsed document. *)
Theorem load_data_never_raises (fs : file_state) :
  exists v,
    load_data json_loads fs = (Ok v, fs) /\
    (fs = Missing -> v = empty_dict) /\
    (fs = Unopenable -> v = empty_dict) /\
    (forall text, fs = Content text -> json_loads text = None -> v = empty_dict) /\
    (forall text doc, fs = Content text -> json_loads text = Some doc -> v = doc).
Proof.
  destruct fs as [| | text].
  - exists empty_dict. repeat split; try discriminate; reflexivity.
  - exists empty_dict. repeat split; try discriminate; reflexivity.
  - unfold load_data, bind, path_exists, try_catch, open_read, lift, json_load, ret.
    destruct (json_loads text) as [doc |] eqn:Hdoc.
    + exists doc. repeat split; try discriminate.
      * intros t [= <-]. congruence.
      * intros t d [= <-]. congruence.
    + exists empty_dict. repeat split; try discriminate; try reflexivity.
      intros t d [= <-]. congruence.
Qed.

(** C3. [update_and_save] merges the top-level fields of [updates] into
    the record of the current date (the stored one, or the default one
    for a new day): a field that [updates] has is replaced by the
    supplied value as a whole, any other field keeps its value.  A
    supplied [sleep] dict without [hours] leaves the record with a
    [sleep] dict that has no [hours].  Then the entire store is handed
    to [save_data]: the file holds the dump of the whole merged store,
    unless it cannot be opened, in which case [OSError] propagates and
    the merge stays in memory. *)
Theorem update_and_save_shallow_merge (updates : day_record) (w : world) :
  let key := get_date_key (current_date w) in
  let old := lookup_or_default key (session_data w) in
  let merged := <[key := updates ∪ old]> (session_data w) in
  let w' := (update_and_save json_dumps updates w).2 in
  session_data w' = merged /\
  session_data w' !! key = Some (updates ∪ old) /\
  (forall field v, updates !! field = Some v -> (updates ∪ old) !! field = Some v) /\
  (forall field, updates !! field = None -> (updates ∪ old) !! field = old !! field) /\
  (forall s, updates !! "sleep" = Some (PDict s) -> s !! "hours" = None ->
             exists rec, session_data w' !! key = Some rec /\
                         rec !! "sleep" = Some (PDict s) /\
                         py_getitem (PDict s) "hours" = Raise KeyError) /\
  update_and_save json_dumps updates w =
    on_disk (save_data json_dumps (store_value merged)) (with_data w merged) /\
  (disk w <> Unopenable ->
   update_and_save json_dumps updates w =
     (Ok tt, with_disk (with_data w merged) (Content (json_dumps (store_value merged))))) /\
  (disk w = Unopenable ->
   update_and_save json_dumps updates w = (Raise OSError, with_data w merged)).
Proof.
  cbv zeta. rewrite update_and_save_spec.
  set (key := get_date_key (current_date w)).
  set (old := lookup_or_default key (session_data w)).
  set (merged := <[key := updates ∪ old]> (session_data w)).
  unfold on_disk. rewrite save_data_spec.
  cbn [with_data session_data current_date today disk].
  assert (Hdata : session_data
                    (let '(r, fs) :=
                       match disk w with
                       | Unopenable => (Raise OSError, Unopenable)
                       | _ => (Ok tt, Content (json_dumps (store_value merged)))
                       end in (r, with_disk (with_data w merged) fs)).2 = merged)
    by (destruct (disk w); reflexivity).
  rewrite Hdata.
  assert (Hlook : merged !! key = Some (updates ∪ old)) by apply lookup_insert_eq.
  split; [reflexivity |]. split; [exact Hlook |].
  split; [intros field v Hv; apply lookup_union_Some_l; exact Hv |].
  split; [intros field Hnone; apply lookup_union_r; exact Hnone |].
  split.
  { intros s Hsleep Hhours. exists (updates ∪ old). split; [exact Hlook |].
    split; [apply lookup_union_Some_l; exact Hsleep |].
    cbn. rewrite Hhours. reflexivity. }
  split; [reflexivity |].
  split.
  - intros Hopen. destruct (disk w); [reflexivity | contradiction | reflexivity].
  - intros Hclosed. rewrite Hclosed. unfold with_disk, with_data.
    cbn [session_data current_date today disk]. rewrite Hclosed. reflexivity.
Qed.

Lemma main_current_day_spec (w : world) :
  main_current_day w =
    (Ok (lookup_or_default (get_date_key (current_date w)) (session_data w)),
     with_data w (materialize (get_date_key (current_date w)) (session_data w))).
Proof.
  unfold main_current_day.
  rewrite (bind_ok _ _ w w w) by reflexivity.
  apply on_data_run, get_day_data_spec.
Qed.

Lemma set_diet_field_spec (key field : string) (v : pyval) (data : store)
    (rec : day_record) (diet : gmap string pyval) :
  data !! key = Some rec -> rec !! "diet" = Some (PDict diet) ->
  set_diet_field key field v data =
    (Ok tt, <[key := <["diet" := PDict (<[field := v]> diet)]> rec]> data).
Proof. intros Hrec Hdiet. unfold set_diet_field. rewrite Hrec, Hdiet. reflexivity. Qed.

Lemma data_getitem_spec (key : string) (data : store) (rec : day_record) :
  data !! key = Some rec -> data_getitem key data = (Ok rec, data).
Proof. intros Hrec. unfold data_getitem. rewrite Hrec. reflexivity. Qed.

Lemma calories_sum_cons (e : pyval) (entries : list pyval) :
  calories_sum (e :: entries) = default 0 (entry_calories e) + calories_sum entries.
Proof. reflexivity. Qed.

Lemma calories_sum_app (entries : list pyval) (e : pyval) :
  calories_sum (entries ++ [e]) = calories_sum entries + default 0 (entry_calories e).
Proof.
  induction entries as [| x rest IH].
  - cbn. lia.
  - rewrite <- app_comm_cons, !calories_sum_cons, IH. lia.
Qed.

(** Summing the calories of entries that have integer calories. *)
Lemma py_sum_calories (entries : list pyval) :
  Forall (fun e => is_Some (entry_calories e)) entries ->
  forall total : Z,
    py_sum_from (fun e => py_getitem e "calories") entries (PInt total)
    = Ok (PInt (total + calories_sum entries)).
Proof.
  induction 1 as [| e rest [c Hc] _ IH]; intros total.
  - cbn. f_equal. f_equal. lia.
  - rewrite calories_sum_cons, Hc.
    assert (Hget : py_getitem e "calories" = Ok (PInt c)).
    { unfold entry_calories in Hc.
      destruct e as [| | | | | | d]; try discriminate.
      cbn [py_getitem].
      destruct (d !! "calories") as [[| | n | | | |] |]; try discriminate.
      injection Hc as ->. reflexivity. }
    cbn [py_sum_from]. rewrite Hget. cbn [result_bind py_add]. rewrite IH.
    change (default 0 (Some c)) with c.
    f_equal. f_equal. lia.
Qed.

(** The "Add Food" handler on a day whose [diet] holds a list of
    entries with integer calories: the entry is appended, the total is
    recomputed from the new list, and the record is merged and saved. *)
Lemma main_add_food_spec (food_name : string) (food_cals now_ms : Z) (w : world)
    (diet : gmap string pyval) (entries : list pyval) :
  let key := get_date_key (current_date w) in
  let rec := lookup_or_default key (session_data w) in
  let entries' := entries ++ [food_entry food_name food_cals now_ms] in
  let diet2 := <["entries" := PList entries']> diet in
  let rec2 := <["diet" := PDict diet2]> rec in
  let data2 := <[key := rec2]> (materialize key (session_data w)) in
  let diet3 := <["totalCalories" := PInt (calories_sum entries')]> diet2 in
  let rec3 := <["diet" := PDict diet3]> rec2 in
  let data3 := <[key := rec3]> data2 in
  str_truthy food_name = true ->
  rec !! "diet" = Some (PDict diet) ->
  diet !! "entries" = Some (PList entries) ->
  Forall (fun e => is_Some (entry_calories e)) entries ->
  main_add_food json_dumps food_name food_cals now_ms w =
    update_and_save json_dumps rec3 (with_data w data3).
Proof.
  intros key rec entries' diet2 rec2 data2 diet3 rec3 data3 Hname Hdiet Hentries Hcal.
  assert (Hcal' : Forall (fun e => is_Some (entry_calories e)) entries').
  { apply Forall_app. split; [exact Hcal |]. constructor; [| constructor].
    exists food_cals. reflexivity. }
  assert (Hrec1 : materialize key (session_data w) !! key = Some rec).
  { rewrite materialize_lookup. destruct (decide (key = key)); [reflexivity | contradiction]. }
  assert (Hrec2 : data2 !! key = Some rec2) by apply lookup_insert_eq.
  assert (Hdiet2 : rec2 !! "diet" = Some (PDict diet2)) by apply lookup_insert_eq.
  assert (Hentries2 : diet2 !! "entries" = Some (PList entries')) by apply lookup_insert_eq.
  assert (Hrec3 : data3 !! key = Some rec3) by apply lookup_insert_eq.
  unfold main_add_food.
  rewrite (bind_ok _ _ w w w) by reflexivity.
  erewrite bind_ok by apply main_current_day_spec.
  rewrite Hname.
  erewrite bind_ok
    by (unfold lift, record_getitem; fold key; fold rec; rewrite Hdiet; reflexivity).
  erewrite bind_ok by (unfold lift; cbn [py_getitem]; rewrite Hentries; reflexivity).
  erewrite bind_ok by (unfold lift; reflexivity).
  erewrite bind_ok
    by (apply on_data_run; apply (set_diet_field_spec _ _ _ _ rec diet);
        [exact Hrec1 | exact Hdiet]).
  erewrite bind_ok by (apply on_data_run, data_getitem_spec; exact Hrec2).
  erewrite bind_ok by (unfold lift, record_getitem; rewrite Hdiet2; reflexivity).
  erewrite bind_ok by (unfold lift; cbn [py_getitem]; rewrite Hentries2; reflexivity).
  erewrite bind_ok by (unfold lift; reflexivity).
  erewrite bind_ok
    by (unfold lift, py_sum; rewrite (py_sum_calories _ Hcal' 0); reflexivity).
  erewrite bind_ok
    by (apply on_data_run; apply (set_diet_field_spec _ _ _ _ rec2 diet2);
        [exact Hrec2 | exact Hdiet2]).
  erewrite bind_ok by (apply on_data_run, data_getitem_spec; exact Hrec3).
  reflexivity.
Qed.

(** C8. After the "Add Food" form, the only operation of the program that
    changes [diet.entries], the record of the current day has the new
    entry appended and [diet.totalCalories] equal to the sum of the
    calories of all its entries, whatever the total said before.  (The
    day's [diet] is a dict whose [entries] is a list of entries with integer
    calories; a new day is read through its default record.) *)
Theorem add_food_total_is_sum (food_name : string) (food_cals now_ms : Z) (w : world)
    (diet : gmap string pyval) (entries : list pyval) :
  let key := get_date_key (current_date w) in
  let entries' := entries ++ [food_entry food_name food_cals now_ms] in
  str_truthy food_name = true ->
  lookup_or_default key (session_data w) !! "diet" = Some (PDict diet) ->
  diet !! "entries" = Some (PList entries) ->
  Forall (fun e => is_Some (entry_calories e)) entries ->
  exists rec' diet',
    session_data (main_add_food json_dumps food_name food_cals now_ms w).2 !! key
      = Some rec' /\
    rec' !! "diet" = Some (PDict diet') /\
    diet' !! "entries" = Some (PList entries') /\
    diet' !! "totalCalories" = Some (PInt (calories_sum entries')) /\
    calories_sum entries' = calories_sum entries + food_cals.
Proof.
  intros key entries' Hname Hdiet Hentries Hcal.
  rewrite (main_add_food_spec food_name food_cals now_ms w diet entries Hname Hdiet
             Hentries Hcal).
  rewrite update_and_save_spec.
  cbn [with_data session_data current_date today disk]. fold key. fold entries'.
  set (rec := lookup_or_default key (session_data w)).
  set (diet2 := <["entries" := PList entries']> diet).
  set (rec2 := <["diet" := PDict diet2]> rec).
  set (data2 := <[key := rec2]> (materialize key (session_data w))).
  set (diet3 := <["totalCalories" := PInt (calories_sum entries')]> diet2).
  set (rec3 := <["diet" := PDict diet3]> rec2).
  set (data3 := <[key := rec3]> data2).
  assert (Hsame : lookup_or_default key data3 = rec3).
  { unfold lookup_or_default, data3. rewrite lookup_insert_eq. reflexivity. }
  rewrite Hsame, (idemp_L (∪) rec3).
  exists rec3, diet3.
  split.
  - unfold on_disk. cbn [with_data session_data current_date today disk].
    destruct (save_data json_dumps _ (disk w)) as [r fs].
    cbn [snd with_disk session_data]. apply lookup_insert_eq.
  - split; [apply lookup_insert_eq |].
    split; [unfold diet3; rewrite lookup_insert_ne by discriminate; apply lookup_insert_eq |].
    split; [apply lookup_insert_eq |].
    unfold entries'. rewrite calories_sum_app. reflexivity.
Qed.

End PersistenceFacts.

(** A night of 7.5 hours is recorded; then a [sleep] dict with a bed time
    only is merged.  The record's [sleep] is the new dict: the hours are
    gone, while [energy], which the update did not mention, is kept. *)
Example merge_replaces_sleep :
  let w1 := (update_and_save sample_dumps
               {[ "sleep" := PDict (list_to_map [("bedTime", PStr "23:00");
                                                 ("wakeTime", PStr "06:30");
                                                 ("hours", PFloat (tenths 75))]) ]}
               fresh_world).2 in
  let w2 := (update_and_save sample_dumps
               {[ "sleep" := PDict {[ "bedTime" := PStr "22:00" ]} ]} w1).2 in
  sleep_field w1 "hours" = Some (PFloat (tenths 75)) /\
  sleep_of w2 = Some (PDict {[ "bedTime" := PStr "22:00" ]}) /\
  sleep_field w2 "hours" = None /\
  (session_data w2 !! "2024-04-24" ≫= (.!! "energy")) = Some (PInt 3) /\
  disk w2 = Content (sample_dumps (store_value (session_data w2))).
Proof. repeat split; vm_compute; reflexivity. Qed.

Lemma add_food_total_is_sum_witness :
  let w1 := (main_add_food sample_dumps "A" 200 1 fresh_world).2 in
  exists rec' diet',
    session_data (main_add_food sample_dumps "B" 150 2 w1).2 !! "2024-04-24" = Some rec' /\
    rec' !! "diet" = Some (PDict diet') /\
    diet' !! "entries" = Some (PList [food_entry "A" 200 1; food_entry "B" 150 2]) /\
    diet' !! "totalCalories" = Some (PInt 350) /\
    350 = 200 + 150.
Proof.
  intros w1.
  apply (add_food_total_is_sum sample_dumps "B" 150 2 w1
           (list_to_map [("entries", PList [food_entry "A" 200 1]);
                         ("totalCalories", PInt 200)])
           [food_entry "A" 200 1]).
  - reflexivity.
  - vm_compute. reflexivity.
  - reflexivity.
  - constructor; [| constructor]. exists 200. reflexivity.
Defined.

(* ===================================================================== *)
(** * Facts about lazy defaulting *)
(* ===================================================================== *)

(** Materializing the days of a window changes no record that a reader
    finds, keeps every key, and leaves each visited day with a record. *)
Lemma foldl_materialize_default (clock : Z -> pydate) (offsets : list Z) :
  forall (data : store) (key : string),
    lookup_or_default key
      (foldl (fun d i => materialize (get_date_key (clock i - i)) d) data offsets)
    = lookup_or_default key data.
Proof.
  induction offsets as [| i rest IH]; intros data key; [reflexivity |].
  cbn [foldl]. rewrite IH. apply lookup_or_default_materialize.
Qed.

Lemma foldl_materialize_keeps (clock : Z -> pydate) (offsets : list Z) :
  forall (data : store) (key : string),
    is_Some (data !! key) ->
    is_Some (foldl (fun d i => materialize (get_date_key (clock i - i)) d) data offsets
             !! key).
Proof.
  induction offsets as [| i rest IH]; intros data key Hkey; [exact Hkey |].
  cbn [foldl]. apply IH. rewrite materialize_lookup.
  destruct (decide (key = get_date_key (clock i - i))); [eauto | exact Hkey].
Qed.

Lemma foldl_materialize_visited (clock : Z -> pydate) (offsets : list Z) :
  forall (data : store) (i : Z),
    i ∈ offsets ->
    is_Some (foldl (fun d j => materialize (get_date_key (clock j - j)) d) data offsets
             !! get_date_key (clock i - i)).
Proof.
  induction offsets as [| j rest IH]; intros data i Hin.
  - apply elem_of_nil in Hin. contradiction.
  - cbn [foldl]. apply elem_of_cons in Hin. destruct Hin as [-> | Hin].
    + apply foldl_materialize_keeps. rewrite materialize_lookup.
      destruct (decide (get_date_key (clock j - j) = get_date_key (clock j - j)));
        [eauto | contradiction].
    + apply IH. exact Hin.
Qed.

(** C7, as the code has it.  [get_day_data] on a date key that is not in
    the store inserts the default record, which has all seven fields,
    into the mapping in memory and returns it; this is what viewing a
    day does, what [update_and_save] starts with, and what the analytics
    window (within the range of dates) does for each of its days, dated
    by the clock reading of its iteration.  None of these reads writes the
    file: the file changes only in [update_and_save], which dumps the
    whole mapping.  The streak calculator, which only probes for
    membership, inserts nothing. *)
Theorem lazy_default_in_memory (json_dumps : pyval -> string) :
  (forall (key : string) (data : store),
      data !! key = None ->
      get_day_data key data = (Ok default_day, <[key := default_day]> data)) /\
  dom default_day = day_fields /\
  (forall w : world,
      main_current_day w =
        (Ok (lookup_or_default (get_date_key (current_date w)) (session_data w)),
         with_data w (materialize (get_date_key (current_date w)) (session_data w))) /\
      disk (main_current_day w).2 = disk w) /\
  (forall (w : world) (clock : Z -> pydate) (days : Z),
      disk (main_analytics clock days w).2 = disk w) /\
  (forall (clock : Z -> pydate) (days : Z) (data : store) (i : Z),
      store_ready data -> window_in_range clock days -> 0 <= i < days ->
      data !! get_date_key (clock i - i) = None ->
      (get_analytics_data clock days data).2 !! get_date_key (clock i - i)
      = Some default_day) /\
  (forall (w : world) (updates : day_record),
      disk w <> Unopenable ->
      exists w',
        update_and_save json_dumps updates w = (Ok tt, w') /\
        session_data w' !! get_date_key (current_date w)
        = Some (updates ∪ lookup_or_default (get_date_key (current_date w))
                             (session_data w)) /\
        disk w' = Content (json_dumps (store_value (session_data w')))) /\
  (forall (today : pydate) (data : store),
      (calculate_nofap_streak today data).2 = data).
Proof.
  split.
  { intros key data Hnone. rewrite get_day_data_spec.
    unfold lookup_or_default, materialize. rewrite Hnone. reflexivity. }
  split; [vm_compute; reflexivity |].
  split.
  { intros w. rewrite main_current_day_spec. split; reflexivity. }
  split.
  { intros w clock days. unfold main_analytics, on_data.
    destruct (get_analytics_data clock days (session_data w)).
    reflexivity. }
  split.
  { intros clock days data i Hready Hrange Hi Hnone.
    destruct (get_analytics_data_spec clock days data Hready Hrange)
      as (stats & Hrun & _).
    rewrite Hrun. cbn [snd].
    pose proof (foldl_materialize_visited clock (py_range_down days) data i
                  (py_range_down_elem days i Hi)) as [rec Hrec].
    pose proof (foldl_materialize_default clock (py_range_down days) data
                  (get_date_key (clock i - i))) as Hsame.
    unfold lookup_or_default in Hsame. rewrite Hrec, Hnone in Hsame.
    rewrite Hrec, Hsame. reflexivity. }
  split.
  { intros w updates Hopen. rewrite update_and_save_spec.
    unfold on_disk. rewrite save_data_spec.
    cbn [with_data session_data current_date today disk].
    eexists. split.
    - destruct (disk w); [reflexivity | contradiction | reflexivity].
    - cbn [with_disk session_data disk]. split; [apply lookup_insert_eq | reflexivity]. }
  intros today data. apply streak_loop_state.
Qed.

(** The first access to a day is not persisted.  In a session without
    history and without a file, viewing the current day creates its
    default record in memory, and so does the analytics window, while
    the file stays missing; and the streak calculator, which also reads
    the day, creates nothing. *)
Lemma first_access_not_persisted :
  session_data fresh_world !! get_date_key 739000 = None /\
  session_data (main_current_day fresh_world).2 !! get_date_key 739000
    = Some default_day /\
  disk (main_current_day fresh_world).2 = Missing /\
  session_data (main_analytics (fun _ => 739000) 7 fresh_world).2 !! get_date_key 739000
    = Some default_day /\
  disk (main_analytics (fun _ => 739000) 7 fresh_world).2 = Missing /\
  session_data (main_streak fresh_world).2 !! get_date_key 739000 = None.
Proof. repeat split; vm_compute; reflexivity. Qed.

(* ===================================================================== *)
(** * Facts about date keys *)
(* ===================================================================== *)

Lemma forall_from_spec (P : Z -> bool) (n : nat) :
  forall start : Z,
    forall_from P n start = true ->
    forall z, start <= z < start + Z.of_nat n -> P z = true.
Proof.
  induction n as [| n IH]; intros start Hall z Hz; [lia |].
  cbn [forall_from] in Hall. apply andb_true_iff in Hall. destruct Hall as [Hhere Hrest].
  destruct (decide (z = start)) as [-> | Hne]; [exact Hhere |].
  apply (IH (start + 1) Hrest). lia.
Qed.

(** [ord2ymd] splits off the 400-year cycles first. *)
Lemma ord2ymd_cycle (n : pydate) :
  ord2ymd n = ymd_in_cycle ((n - 1) / 146097) ((n - 1) mod 146097).
Proof. reflexivity. Qed.

(** Moving by whole cycles moves the year by 400 years each. *)
Lemma ymd_in_cycle_shift (q r : Z) :
  ymd_in_cycle q r =
    let '(y, m, d) := ymd_in_cycle 0 r in (y + 400 * q, m, d).
Proof.
  unfold ymd_in_cycle. cbv zeta.
  repeat match goal with
         | |- context [if ?b then _ else _] => destruct b
         end;
    f_equal; f_equal; lia.
Qed.

Lemma is_leap_shift (y q : Z) : is_leap (y + 400 * q) = is_leap y.
Proof.
  unfold is_leap.
  replace (y + 400 * q) with (y + (100 * q) * 4) at 1 by lia.
  replace (y + 400 * q) with (y + (4 * q) * 100) at 1 by lia.
  replace (y + 400 * q) with (y + q * 400) by lia.
  rewrite !Z.mod_add by lia. reflexivity.
Qed.

Lemma days_before_year_shift (y q : Z) :
  days_before_year (y + 400 * q) = days_before_year y + 146097 * q.
Proof.
  unfold days_before_year. cbv zeta.
  replace ((y + 400 * q - 1) / 4) with ((y - 1) / 4 + 100 * q)
    by (replace (y + 400 * q - 1) with (y - 1 + (100 * q) * 4) by lia;
        rewrite Z.div_add by lia; reflexivity).
  replace ((y + 400 * q - 1) / 100) with ((y - 1) / 100 + 4 * q)
    by (replace (y + 400 * q - 1) with (y - 1 + (4 * q) * 100) by lia;
        rewrite Z.div_add by lia; reflexivity).
  replace ((y + 400 * q - 1) / 400) with ((y - 1) / 400 + q)
    by (replace (y + 400 * q - 1) with (y - 1 + q * 400) by lia;
        rewrite Z.div_add by lia; reflexivity).
  lia.
Qed.

Lemma ymd2ord_shift (y m d q : Z) :
  ymd2ord (y + 400 * q, m, d) = ymd2ord (y, m, d) + 146097 * q.
Proof.
  unfold ymd2ord. rewrite is_leap_shift, days_before_year_shift. lia.
Qed.

Lemma cycle_days_ok : forall_from cycle_day_ok (Z.to_nat 146097) 0 = true.
Proof. vm_compute. reflexivity. Qed.

Lemma cycle_day_ok_spec (r : Z) :
  0 <= r < 146097 ->
  exists y m d,
    ymd_in_cycle 0 r = (y, m, d) /\ ymd2ord (y, m, d) = r + 1 /\
    1 <= y <= 400 /\ 1 <= m <= 12 /\ 1 <= d <= 31.
Proof.
  intros Hr.
  pose proof (forall_from_spec _ _ _ cycle_days_ok r ltac:(lia)) as Hok.
  unfold cycle_day_ok in Hok.
  destruct (ymd_in_cycle 0 r) as [[y m] d].
  exists y, m, d.
  repeat (apply andb_true_iff in Hok; destruct Hok as [Hok ?]).
  split; [reflexivity |]. lia.
Qed.

(** Year, month and day of any ordinal, and the way back. *)
Lemma ord2ymd_spec (n : pydate) :
  exists y m d,
    ord2ymd n = (y + 400 * ((n - 1) / 146097), m, d) /\
    ymd2ord (ord2ymd n) = n /\
    1 <= y <= 400 /\ 1 <= m <= 12 /\ 1 <= d <= 31.
Proof.
  pose proof (Z.div_mod (n - 1) 146097 ltac:(lia)) as Hdiv.
  pose proof (Z.mod_pos_bound (n - 1) 146097 ltac:(lia)) as Hmod.
  destruct (cycle_day_ok_spec _ Hmod) as (y & m & d & Hymd & Hord & Hy & Hm & Hd).
  exists y, m, d.
  rewrite ord2ymd_cycle, ymd_in_cycle_shift, Hymd.
  split; [reflexivity |]. split; [| lia].
  rewrite ymd2ord_shift, Hord. lia.
Qed.

Lemma ord2ymd_inj (n1 n2 : pydate) : ord2ymd n1 = ord2ymd n2 -> n1 = n2.
Proof.
  intros Heq.
  destruct (ord2ymd_spec n1) as (? & ? & ? & _ & H1 & _).
  destruct (ord2ymd_spec n2) as (? & ? & ? & _ & H2 & _).
  congruence.
Qed.

(** For the dates of Python the year has four digits. *)
Lemma ord2ymd_range (n : pydate) :
  date_min <= n <= date_max ->
  exists y m d,
    ord2ymd n = (y, m, d) /\ 1 <= y <= 9999 /\ 1 <= m <= 12 /\ 1 <= d <= 31.
Proof.
  unfold date_min, date_max. intros Hn.
  destruct (ord2ymd_spec n) as (y & m & d & Hymd & Hord & Hy & Hm & Hd).
  set (q := (n - 1) / 146097) in *.
  assert (Hq : 0 <= q <= 24).
  { subst q. split.
    - apply Z.div_pos; lia.
    - assert ((n - 1) / 146097 < 25) by (apply Z.div_lt_upper_bound; lia). lia. }
  exists (y + 400 * q), m, d. split; [exact Hymd |].
  split; [| lia].
  split; [lia |].
  destruct (decide (y + 400 * q <= 9999)) as [Hle | Hgt]; [exact Hle |].
  exfalso.
  assert (y = 400 /\ q = 24) as [-> ->] by lia.
  rewrite Hymd in Hord. unfold ymd2ord in Hord.
  change (days_before_year (400 + 400 * 24)) with 3652059 in Hord.
  assert (0 <= days_before_month m) by (unfold days_before_month; repeat case_match; lia).
  destruct ((2 <? m) && is_leap (400 + 400 * 24)); lia.
Qed.

Lemma digit_char_inj (a b : Z) : digit_char a = digit_char b -> a mod 10 = b mod 10.
Proof.
  unfold digit_char. intros Heq.
  pose proof (Z.mod_pos_bound a 10 ltac:(lia)).
  pose proof (Z.mod_pos_bound b 10 ltac:(lia)).
  apply (f_equal nat_of_ascii) in Heq.
  rewrite !nat_ascii_embedding in Heq by lia. lia.
Qed.

Lemma pad2_inj (a b : Z) : 0 <= a < 100 -> 0 <= b < 100 -> pad2 a = pad2 b -> a = b.
Proof.
  unfold pad2. intros Ha Hb [= H1 H0].
  apply digit_char_inj in H1, H0.
  Z.to_euclidean_division_equations. lia.
Qed.

Lemma pad4_inj (a b : Z) :
  0 <= a < 10000 -> 0 <= b < 10000 -> pad4 a = pad4 b -> a = b.
Proof.
  unfold pad4, pad2. intros Ha Hb [= H3 H2 H1 H0].
  apply digit_char_inj in H3, H2, H1, H0.
  Z.to_euclidean_division_equations. lia.
Qed.

(** Equal date keys of two dates of Python mean equal dates. *)
Lemma get_date_key_inj (d1 d2 : pydate) :
  date_min <= d1 <= date_max -> date_min <= d2 <= date_max ->
  get_date_key d1 = get_date_key d2 -> d1 = d2.
Proof.
  intros H1 H2 Hkey. apply ord2ymd_inj.
  destruct (ord2ymd_range d1 H1) as (y1 & m1 & a1 & E1 & Hy1 & Hm1 & Ha1).
  destruct (ord2ymd_range d2 H2) as (y2 & m2 & a2 & E2 & Hy2 & Hm2 & Ha2).
  unfold get_date_key in Hkey. rewrite E1, E2 in Hkey. rewrite E1, E2.
  unfold pad4, pad2 in Hkey. cbn [String.append] in Hkey.
  injection Hkey as Hy3 Hy2' Hy1' Hy0 Hm1' Hm0 Ha1' Ha0.
  apply digit_char_inj in Hy3, Hy2', Hy1', Hy0, Hm1', Hm0, Ha1', Ha0.
  assert (y1 = y2) by (Z.to_euclidean_division_equations; lia).
  assert (m1 = m2) by (Z.to_euclidean_division_equations; lia).
  assert (a1 = a2) by (Z.to_euclidean_division_equations; lia).
  congruence.
Qed.

(** X1. Within the dates of Python (0001-01-01 to 9999-12-31) two
    different days never get the same date key. *)
Theorem date_key_distinct (d1 d2 : pydate) :
  date_min <= d1 <= date_max -> date_min <= d2 <= date_max ->
  d1 <> d2 -> get_date_key d1 <> get_date_key d2.
Proof.
  intros H1 H2 Hne Hkey. apply Hne. exact (get_date_key_inj d1 d2 H1 H2 Hkey).
Qed.

Lemma date_key_distinct_witness : get_date_key 738999 <> get_date_key 739000.
Proof.
  apply (date_key_distinct 738999 739000); unfold date_min, date_max; lia.
Defined.

(* ===================================================================== *)
(** * More facts about the journal store *)
(* ===================================================================== *)

(** X2. [get_day_data] never raises, never replaces a record that is
    there, touches no other key, and asking again changes nothing more
    and returns the same record. *)
Theorem get_day_data_stable (key : string) (data : store) :
  exists rec data',
    get_day_data key data = (Ok rec, data') /\
    data' !! key = Some rec /\
    (forall old, data !! key = Some old -> rec = old /\ data' = data) /\
    (forall other, other <> key -> data' !! other = data !! other) /\
    get_day_data key data' = (Ok rec, data').
Proof.
  exists (lookup_or_default key data), (materialize key data).
  assert (Hhere : materialize key data !! key = Some (lookup_or_default key data)).
  { rewrite materialize_lookup. destruct (decide (key = key)); [reflexivity | contradiction]. }
  split; [apply get_day_data_spec |]. split; [exact Hhere |]. split; [| split].
  - intros old Hold. unfold lookup_or_default, materialize. rewrite Hold. split; reflexivity.
  - intros other Hne. rewrite materialize_lookup.
    destruct (decide (other = key)); [contradiction | reflexivity].
  - rewrite get_day_data_spec, lookup_or_default_materialize. f_equal.
    unfold materialize at 1. rewrite Hhere. reflexivity.
Qed.

(* ===================================================================== *)
(** * More facts about the streak *)
(* ===================================================================== *)

(** Two tests that agree on the offsets give the same run. *)
Lemma run_length_ext (f g : Z -> bool) (offsets : list Z) :
  Forall (fun i => f i = g i) offsets -> run_length f offsets = run_length g offsets.
Proof.
  induction 1 as [| i rest Hi _ IH]; [reflexivity |].
  cbn [run_length]. rewrite Hi, IH. reflexivity.
Qed.

(** X3. For every store the streak is a number from 0 to 365, and it is
    0 exactly when neither today nor yesterday is flagged. *)
Theorem streak_bounds (today : pydate) (data : store) :
  exists s,
    (calculate_nofap_streak today data).1 = Ok s /\
    0 <= s <= 365 /\
    (s = 0 <-> day_flagged data today 0 = false /\ day_flagged data today 1 = false).
Proof.
  rewrite streak_value. cbn [fst].
  pose proof (run_length_seq (day_flagged data today) 364 1) as Hrun.
  cbv zeta in Hrun.
  set (k := run_length (day_flagged data today) (Z.of_nat <$> seq 1 364)) in *.
  destruct Hrun as (Hle & Hrun & Hstop).
  eexists. split; [reflexivity |]. split.
  - destruct (day_flagged data today 0); lia.
  - split.
    + intros Hzero. destruct (day_flagged data today 0); [lia |].
      split; [reflexivity |].
      assert (k = 0%nat) as Hk by lia.
      specialize (Hstop ltac:(lia)). rewrite Hk in Hstop. exact Hstop.
    + intros [H0 H1]. rewrite H0.
      destruct (decide (k = 0%nat)) as [-> | Hk]; [reflexivity |].
      pose proof (Hrun 1%nat ltac:(lia)) as Hone.
      change (Z.of_nat 1) with 1 in Hone. congruence.
Qed.

(* ===================================================================== *)
(** * Facts about the check-in button *)
(* ===================================================================== *)

(** The world that [update_and_save] leaves, up to the state of the
    file. *)
Lemma update_and_save_world (json_dumps : pyval -> string) (updates : day_record)
    (w : world) :
  exists fs,
    (update_and_save json_dumps updates w).2 =
      with_disk
        (with_data w (<[get_date_key (current_date w) :=
                          updates ∪ current_record w]> (session_data w)))
        fs.
Proof.
  rewrite update_and_save_spec. unfold on_disk.
  destruct (save_data json_dumps _ _) as [r fs]. exists fs. reflexivity.
Qed.

(** [update_and_save] on a file that can be written. *)
Lemma update_and_save_ok (json_dumps : pyval -> string) (updates : day_record) (w : world) :
  disk w <> Unopenable ->
  update_and_save json_dumps updates w =
    (Ok tt,
     with_disk
       (with_data w (<[get_date_key (current_date w) :=
                         updates ∪ current_record w]> (session_data w)))
       (Content (json_dumps
                   (store_value (<[get_date_key (current_date w) :=
                                     updates ∪ current_record w]> (session_data w)))))).
Proof.
  intros Hopen. rewrite update_and_save_spec. unfold on_disk. rewrite save_data_spec.
  cbn [with_data session_data current_date today disk].
  destruct (disk w); [reflexivity | contradiction | reflexivity].
Qed.

Lemma main_nofap_button_spec (json_dumps : pyval -> string) (w : world) (v : pyval) :
  current_record w !! "nofapStreak" = Some v ->
  main_nofap_button json_dumps w =
    update_and_save json_dumps
      {[ "nofapStreak" := PInt (if py_eq_int v 1 then 0 else 1) ]}
      (with_data w (materialize (get_date_key (current_date w)) (session_data w))).
Proof.
  intros Hflag. unfold main_nofap_button.
  erewrite bind_ok by apply main_current_day_spec.
  erewrite bind_ok
    by (unfold lift, record_getitem; unfold current_record in Hflag; rewrite Hflag;
        reflexivity).
  reflexivity.
Qed.

(** After the button the store holds, for the current date, the record a
    reader found before with the flag switched. *)
Lemma main_nofap_button_world (json_dumps : pyval -> string) (w : world) (v : pyval) :
  current_record w !! "nofapStreak" = Some v ->
  exists fs,
    (main_nofap_button json_dumps w).2 =
      with_disk
        (with_data w
           (<[get_date_key (current_date w) :=
                <["nofapStreak" := PInt (if py_eq_int v 1 then 0 else 1)]>
                  (current_record w)]> (session_data w)))
        fs.
Proof.
  intros Hflag. rewrite (main_nofap_button_spec json_dumps w v Hflag).
  destruct (update_and_save_world json_dumps
              {[ "nofapStreak" := PInt (if py_eq_int v 1 then 0 else 1) ]}
              (with_data w (materialize (get_date_key (current_date w)) (session_data w))))
    as [fs Hw].
  exists fs. rewrite Hw. unfold current_record.
  cbn [with_data with_disk session_data current_date today disk].
  rewrite lookup_or_default_materialize, insert_materialize.
  rewrite <- insert_union_singleton_l. reflexivity.
Qed.

Lemma main_streak_value (w : world) :
  (main_streak w).1 = (calculate_nofap_streak (today w) (session_data w)).1.
Proof.
  unfold main_streak. rewrite (bind_ok _ _ w w w) by reflexivity.
  unfold on_data. destruct (calculate_nofap_streak _ _). reflexivity.
Qed.

(** The flag of today as the streak reads it, from the record a reader
    finds. *)
Lemma day_flagged_today (data : store) (today : pydate) (v : pyval) :
  lookup_or_default (get_date_key today) data !! "nofapStreak" = Some v ->
  day_flagged data today 0 = py_eq_int v 1.
Proof.
  unfold day_flagged, lookup_or_default, dict_get. rewrite Z.sub_0_r.
  destruct (data !! get_date_key today) as [rec |].
  - intros ->. reflexivity.
  - intros [= <-]. reflexivity.
Qed.

(** X4. On the page of today, pressing the check-in button moves the
    streak by exactly one: up when today was not flagged, down when it
    was. *)
Theorem checkin_moves_streak_by_one (json_dumps : pyval -> string) (w : world)
    (v : pyval) :
  current_date w = today w ->
  date_min + 364 <= today w <= date_max ->
  current_record w !! "nofapStreak" = Some v ->
  exists s,
    (main_streak w).1 = Ok s /\
    (main_streak (main_nofap_button json_dumps w).2).1
    = Ok (if py_eq_int v 1 then s - 1 else s + 1).
Proof.
  intros Hsame Hrange Hflag.
  destruct (main_nofap_button_world json_dumps w v Hflag) as [fs Hw].
  rewrite Hw, !main_streak_value.
  cbn [with_data with_disk session_data current_date today disk].
  unfold current_record in *. rewrite Hsame in *.
  set (day := today w) in *. set (data := session_data w) in *.
  set (new_val := if py_eq_int v 1 then 0 else 1).
  set (data' := <[get_date_key day :=
                    <["nofapStreak" := PInt new_val]>
                      (lookup_or_default (get_date_key day) data)]> data).
  rewrite !streak_value. cbn [fst].
  assert (Htoday : day_flagged data day 0 = py_eq_int v 1)
    by (apply day_flagged_today; exact Hflag).
  assert (Htoday' : day_flagged data' day 0 = negb (py_eq_int v 1)).
  { unfold day_flagged, data', dict_get. rewrite Z.sub_0_r, lookup_insert_eq, lookup_insert_eq.
    unfold new_val. destruct (py_eq_int v 1); reflexivity. }
  assert (Hrest : run_length (day_flagged data' day) (Z.of_nat <$> seq 1 364)
                  = run_length (day_flagged data day) (Z.of_nat <$> seq 1 364)).
  { apply run_length_ext, Forall_forall. intros i Hi.
    apply list_elem_of_fmap in Hi. destruct Hi as (j & -> & Hj).
    apply list_elem_of_In, in_seq in Hj.
    unfold day_flagged, data'. rewrite lookup_insert_ne; [reflexivity |].
    intros Hkey. apply get_date_key_inj in Hkey; unfold date_min, date_max in *; lia. }
  rewrite Htoday, Htoday', Hrest.
  eexists. split; [reflexivity |].
  f_equal. destruct (py_eq_int v 1); cbn [negb]; lia.
Qed.

Lemma checkin_moves_streak_by_one_witness :
  exists s,
    (main_streak fresh_world).1 = Ok s /\
    (main_streak (main_nofap_button sample_dumps fresh_world).2).1 = Ok (s + 1).
Proof.
  apply (checkin_moves_streak_by_one sample_dumps fresh_world (PInt 0)).
  - reflexivity.
  - unfold date_min, date_max. cbn. lia.
  - reflexivity.
Defined.

(** X5. Pressing the check-in button twice on a day whose flag is 0 or 1
    leaves the store as viewing the day left it: the day's record is as
    it was (the default one for a new day), every other day untouched. *)
Theorem checkin_twice_restores (json_dumps : pyval -> string) (w : world) (b : Z) :
  current_record w !! "nofapStreak" = Some (PInt b) ->
  b = 0 \/ b = 1 ->
  session_data
    (main_nofap_button json_dumps (main_nofap_button json_dumps w).2).2
  = materialize (get_date_key (current_date w)) (session_data w).
Proof.
  intros Hflag Hb.
  destruct (main_nofap_button_world json_dumps w (PInt b) Hflag) as [fs Hw].
  set (key := get_date_key (current_date w)) in *.
  set (rec := current_record w) in *.
  set (flipped := if py_eq_int (PInt b) 1 then 0 else 1) in *.
  set (w1 := (main_nofap_button json_dumps w).2) in *.
  assert (Hkey1 : get_date_key (current_date w1) = key) by (rewrite Hw; reflexivity).
  assert (Hrec1 : current_record w1 = <["nofapStreak" := PInt flipped]> rec).
  { unfold current_record. rewrite Hkey1, Hw. unfold lookup_or_default.
    cbn [with_data with_disk session_data]. rewrite lookup_insert_eq. reflexivity. }
  assert (Hflag1 : current_record w1 !! "nofapStreak" = Some (PInt flipped))
    by (rewrite Hrec1; apply lookup_insert_eq).
  destruct (main_nofap_button_world json_dumps w1 (PInt flipped) Hflag1) as [fs' Hw'].
  rewrite Hw'. cbn [with_data with_disk session_data]. rewrite Hkey1, Hrec1.
  rewrite Hw. cbn [with_data with_disk session_data].
  rewrite insert_insert_eq, insert_insert_eq.
  assert (Hback : (if py_eq_int (PInt flipped) 1 then 0 else 1) = b).
  { unfold flipped. destruct Hb as [-> | ->]; reflexivity. }
  rewrite Hback, (insert_id rec "nofapStreak" (PInt b) Hflag).
  unfold rec, current_record, lookup_or_default, materialize. fold key.
  destruct (session_data w !! key) as [old |] eqn:Hold; [| reflexivity].
  apply insert_id. exact Hold.
Qed.

Lemma checkin_twice_restores_witness :
  session_data
    (main_nofap_button sample_dumps (main_nofap_button sample_dumps fresh_world).2).2
  = materialize (get_date_key (current_date fresh_world)) (session_data fresh_world).
Proof.
  apply (checkin_twice_restores sample_dumps fresh_world 0).
  - reflexivity.
  - left. reflexivity.
Defined.

(* ===================================================================== *)
(** * More facts about sleep hours *)
(* ===================================================================== *)

Lemma decimal_value_range (cp d : Z) : decimal_value cp = Some d -> 0 <= d <= 9.
Proof.
  unfold decimal_value. intros Hd.
  destruct (find (fun z => (z <=? cp) && (cp <? z + 10)) decimal_zeros) as [z |] eqn:Hz;
    [| discriminate].
  cbn [mbind option_bind] in Hd. injection Hd as <-.
  apply find_some in Hz. destruct Hz as [_ Hz].
  apply andb_true_iff in Hz. destruct Hz as [Hlo Hhi]. lia.
Qed.

Lemma match_digit_range (s : string) (d : Z) (r : string) :
  match_digit s = Some (d, r) -> 0 <= d <= 9.
Proof.
  unfold match_digit. intros Hm.
  destruct (str_next s) as [[cp r0] |]; [| discriminate]. cbn [mbind option_bind] in Hm.
  destruct (decimal_value cp) as [d0 |] eqn:Hd; [| discriminate].
  cbn [mbind option_bind] in Hm. injection Hm as <- _.
  exact (decimal_value_range cp d0 Hd).
Qed.

Lemma match_digit_upto_range (k : Z) (s : string) (d : Z) (r : string) :
  match_digit_upto k s = Some (d, r) -> 0 <= d <= k.
Proof.
  unfold match_digit_upto. intros Hm.
  destruct (str_next s) as [[cp r0] |]; [| discriminate]. cbn [mbind option_bind] in Hm.
  destruct ((48 <=? cp) && (cp <=? 48 + k)) eqn:Hc; [| discriminate].
  injection Hm as <- _.
  apply andb_true_iff in Hc. destruct Hc as [Hlo Hhi]. lia.
Qed.

(** An alternative made of a class [[0-k]] and a [\d] reads a number
    below [10 * k + 10]. *)
Lemma match_two_digits_range (k : Z) (s : string) (n : Z) (r : string) :
  ('(a, r1) ← match_digit_upto k s;
   '(b, r2) ← match_digit r1;
   Some (10 * a + b, r2)) = Some (n, r) ->
  0 <= n < 10 * k + 10.
Proof.
  intros Hm.
  destruct (match_digit_upto k s) as [[a r1] |] eqn:Ha; [| discriminate]. cbn [mbind option_bind] in Hm.
  destruct (match_digit r1) as [[b r2] |] eqn:Hb; [| discriminate]. cbn [mbind option_bind] in Hm.
  injection Hm as <- _.
  pose proof (match_digit_upto_range _ _ _ _ Ha).
  pose proof (match_digit_range _ _ _ Hb). lia.
Qed.

Lemma option_list_elem {A : Type} (x : A) (mx : option A) :
  x ∈ option_list mx -> mx = Some x.
Proof.
  destruct mx as [y |]; cbn; intros Hin.
  - apply list_elem_of_singleton in Hin. congruence.
  - apply elem_of_nil in Hin. contradiction.
Qed.

Lemma match_H_range (s : string) (h : Z) (r : string) :
  (h, r) ∈ match_H s -> 0 <= h < 24.
Proof.
  unfold match_H. intros Hin. rewrite !elem_of_app in Hin.
  destruct Hin as [Hin | [Hin | Hin]]; apply option_list_elem in Hin.
  - destruct (match_char "2" s) as [r1 |]; [| discriminate]. cbn [mbind option_bind] in Hin.
    destruct (match_digit_upto 3 r1) as [[b r2] |] eqn:Hb; [| discriminate].
    cbn [mbind option_bind] in Hin. injection Hin as <- _.
    pose proof (match_digit_upto_range _ _ _ _ Hb). lia.
  - pose proof (match_two_digits_range 1 s h r Hin). lia.
  - pose proof (match_digit_range _ _ _ Hin). lia.
Qed.

Lemma match_M_range (s : string) (m : Z) (r : string) :
  (m, r) ∈ match_M s -> 0 <= m < 60.
Proof.
  unfold match_M. intros Hin. rewrite !elem_of_app in Hin.
  destruct Hin as [Hin | Hin]; apply option_list_elem in Hin.
  - pose proof (match_two_digits_range 5 s m r Hin). lia.
  - pose proof (match_digit_range _ _ _ Hin). lia.
Qed.

(** Whatever [strptime] accepts is an hour below 24 and a minute below
    60. *)
Lemma strptime_HM_range (s : string) (t : Z) :
  strptime_HM s = Ok t ->
  exists h m, 0 <= h < 24 /\ 0 <= m < 60 /\ t = h * 3600 + m * 60.
Proof.
  unfold strptime_HM.
  destruct (match_HM s) as [| [[h m] r] rest] eqn:Hmatch; [discriminate |].
  destruct r; [| discriminate]. intros [= <-].
  assert (Hin : (h, m, EmptyString) ∈ match_HM s) by (rewrite Hmatch; left).
  unfold match_HM in Hin.
  apply list_elem_of_bind in Hin. destruct Hin as ([h' r1] & Hin & Hh).
  apply list_elem_of_bind in Hin. destruct Hin as (r2 & Hin & _).
  apply list_elem_of_bind in Hin. destruct Hin as ([m' r3] & Hin & Hm).
  apply list_elem_of_singleton in Hin. cbn in Hin. injection Hin as -> -> _.
  exists h', m'. split; [exact (match_H_range _ _ _ Hh) |].
  split; [exact (match_M_range _ _ _ Hm) | reflexivity].
Qed.

(** The seconds between two accepted times, after the wrap at midnight,
    are a whole number of minutes below a day. *)
Lemma elapsed_minutes (b w : Z) :
  (exists h m, 0 <= h < 24 /\ 0 <= m < 60 /\ b = h * 3600 + m * 60) ->
  (exists h m, 0 <= h < 24 /\ 0 <= m < 60 /\ w = h * 3600 + m * 60) ->
  exists d, 0 <= d < 1440 /\ (if w <? b then w + 86400 else w) - b = d * 60.
Proof.
  intros (h1 & m1 & Hh1 & Hm1 & ->) (h2 & m2 & Hh2 & Hm2 & ->).
  destruct (Z.ltb_spec (h2 * 3600 + m2 * 60) (h1 * 3600 + m1 * 60)).
  - exists (h2 * 60 + m2 + 1440 - (h1 * 60 + m1)). lia.
  - exists (h2 * 60 + m2 - (h1 * 60 + m1)). lia.
Qed.

(** X6. For every pair of strings the sleep hours are a float with one
    decimal from 0.0 to 24.0. *)
Theorem sleep_hours_range (bed_time wake_time : string) :
  exists k, 0 <= k <= 240 /\ calculate_sleep_hours bed_time wake_time = tenths k.
Proof.
  unfold calculate_sleep_hours.
  destruct (negb (str_truthy bed_time) || negb (str_truthy wake_time));
    [exists 0; split; [lia | reflexivity] |].
  destruct (strptime_HM bed_time) as [b | e] eqn:Hb;
    [| exists 0; split; [lia | reflexivity]].
  destruct (strptime_HM wake_time) as [w | e] eqn:Hw;
    [| exists 0; split; [lia | reflexivity]].
  cbn [result_bind try_except].
  destruct (elapsed_minutes b w (strptime_HM_range _ _ Hb) (strptime_HM_range _ _ Hw))
    as (d & Hd & ->).
  destruct (hours_of_minutes_rounds d Hd) as (k & Hk & Hpos & Hnear).
  exists k. split; [lia | exact Hk].
Qed.

(** A stored time that is empty or that [strptime] accepts lets the
    preset of the time input be computed. *)
Lemma sleep_preset_ok (stored fallback : string) :
  stored = EmptyString \/ (exists t, strptime_HM stored = Ok t) ->
  (exists t, strptime_HM fallback = Ok t) ->
  exists t,
    (if py_truthy (PStr stored) then py_strptime_HM (PStr stored)
     else strptime_HM fallback) = Ok t.
Proof.
  intros Hstored Hfallback. cbn [py_truthy py_strptime_HM].
  destruct stored as [| c rest]; [exact Hfallback |].
  destruct Hstored as [Hempty | Hparse]; [discriminate | exact Hparse].
Qed.

Lemma py_eq_str_spec (s s' : string) :
  py_eq_str (PStr s) s' = true <-> s = s'.
Proof. unfold py_eq_str. apply bool_decide_eq_true. Qed.

(** X7. The sleep column on a day whose stored bed and wake times are
    texts that are empty or parse, with a file that can be written: it
    returns, and afterwards the day's [sleep] holds the two times of the
    inputs.  When a time differed from the stored text, [sleep] is
    replaced by the two times and the hours computed from them, and the
    store is saved; when both were the same, nothing is written beyond
    the day's record being in the store. *)
Theorem sleep_section_stores_times (json_dumps : pyval -> string) (w : world)
    (bed wake : Z * Z) (stored : gmap string pyval) (bed0 wake0 : string) :
  let bed_time := time_strftime_HM bed.1 bed.2 in
  let wake_time := time_strftime_HM wake.1 wake.2 in
  current_record w !! "sleep" = Some (PDict stored) ->
  stored !! "bedTime" = Some (PStr bed0) ->
  stored !! "wakeTime" = Some (PStr wake0) ->
  bed0 = EmptyString \/ (exists t, strptime_HM bed0 = Ok t) ->
  wake0 = EmptyString \/ (exists t, strptime_HM wake0 = Ok t) ->
  disk w <> Unopenable ->
  exists w' s,
    main_sleep_section json_dumps bed wake w = (Ok tt, w') /\
    current_record w' !! "sleep" = Some (PDict s) /\
    s !! "bedTime" = Some (PStr bed_time) /\
    s !! "wakeTime" = Some (PStr wake_time) /\
    (bed0 <> bed_time \/ wake0 <> wake_time ->
     s = list_to_map [("bedTime", PStr bed_time); ("wakeTime", PStr wake_time);
                      ("hours", PFloat (calculate_sleep_hours bed_time wake_time))] /\
     disk w' = Content (json_dumps (store_value (session_data w')))) /\
    (bed0 = bed_time /\ wake0 = wake_time ->
     w' = with_data w (materialize (get_date_key (current_date w)) (session_data w))).
Proof.
  intros bed_time wake_time Hsleep Hbed Hwake Hbed_ok Hwake_ok Hopen.
  set (key := get_date_key (current_date w)).
  set (w1 := with_data w (materialize key (session_data w))).
  assert (Hrec1 : current_record w1 = current_record w).
  { unfold current_record, w1. cbn [with_data session_data current_date].
    apply lookup_or_default_materialize. }
  destruct (sleep_preset_ok bed0 "22:00" Hbed_ok) as [tb Htb];
    [eexists; reflexivity |].
  destruct (sleep_preset_ok wake0 "06:00" Hwake_ok) as [tw Htw];
    [eexists; reflexivity |].
  unfold main_sleep_section.
  erewrite bind_ok by apply main_current_day_spec.
  erewrite bind_ok
    by (unfold lift, record_getitem; unfold current_record in Hsleep; rewrite Hsleep;
        reflexivity).
  erewrite bind_ok by (unfold lift; cbn [py_getitem]; rewrite Hbed; reflexivity).
  erewrite bind_ok by (unfold lift; rewrite Htb; reflexivity).
  erewrite bind_ok by (unfold lift; cbn [py_getitem]; rewrite Hwake; reflexivity).
  erewrite bind_ok by (unfold lift; rewrite Htw; reflexivity).
  cbv zeta. fold bed_time wake_time key w1.
  destruct (negb (py_eq_str (PStr bed0) bed_time)
            || negb (py_eq_str (PStr wake0) wake_time)) eqn:Hdiff.
  - set (new_sleep := list_to_map
                        [("bedTime", PStr bed_time); ("wakeTime", PStr wake_time);
                         ("hours", PFloat (calculate_sleep_hours bed_time wake_time))]
                      : gmap string pyval).
    rewrite (update_and_save_ok json_dumps _ w1) by exact Hopen.
    eexists _, new_sleep. split; [reflexivity |].
    unfold current_record at 1. unfold w1, with_disk, with_data.
    cbn [session_data current_date today disk]. fold key.
    unfold lookup_or_default at 1. rewrite lookup_insert_eq.
    split; [apply lookup_union_Some_l, lookup_singleton_eq |].
    split; [reflexivity |]. split; [reflexivity |]. split.
    + intros _. split; reflexivity.
    + intros [-> ->]. exfalso.
      apply orb_true_iff in Hdiff.
      destruct Hdiff as [Hne | Hne]; apply negb_true_iff in Hne.
      * pose proof (proj2 (py_eq_str_spec bed_time bed_time) eq_refl). congruence.
      * pose proof (proj2 (py_eq_str_spec wake_time wake_time) eq_refl). congruence.
  - apply orb_false_iff in Hdiff. destruct Hdiff as [Hb Hw].
    apply negb_false_iff, py_eq_str_spec in Hb, Hw.
    exists w1, stored. split; [reflexivity |].
    rewrite Hrec1. split; [exact Hsleep |].
    split; [rewrite Hbed, Hb; reflexivity |].
    split; [rewrite Hwake, Hw; reflexivity |].
    split; [intros [Hne | Hne]; contradiction | reflexivity].
Qed.

Lemma sleep_section_stores_times_witness :
  exists w' s,
    main_sleep_section sample_dumps (22, 0) (6, 0) fresh_world = (Ok tt, w') /\
    current_record w' !! "sleep" = Some (PDict s) /\
    s !! "bedTime" = Some (PStr "22:00") /\
    s !! "wakeTime" = Some (PStr "06:00") /\
    ("" <> "22:00" \/ "" <> "06:00" ->
     s = list_to_map [("bedTime", PStr "22:00"); ("wakeTime", PStr "06:00");
                      ("hours", PFloat (calculate_sleep_hours "22:00" "06:00"))] /\
     disk w' = Content (sample_dumps (store_value (session_data w')))) /\
    ("" = "22:00" /\ "" = "06:00" ->
     w' = with_data fresh_world
            (materialize (get_date_key (current_date fresh_world))
               (session_data fresh_world))).
Proof.
  apply (sleep_section_stores_times sample_dumps fresh_world (22, 0) (6, 0)
           (list_to_map [("bedTime", PStr ""); ("wakeTime", PStr "");
                         ("hours", PFloat float_zero)])
           "" "").
  - reflexivity.
  - reflexivity.
  - reflexivity.
  - left. reflexivity.
  - left. reflexivity.
  - discriminate.
Defined.

(** Viewing a new day with the inputs at their presets, 22:00 and 06:00,
    records a night of 8.0 hours for it and saves the store. *)
Example viewing_new_day_records_sleep :
  let w' := (main_sleep_section sample_dumps (22, 0) (6, 0) fresh_world).2 in
  sleep_field w' "hours" = Some (PFloat (tenths 80)) /\
  disk w' = Content (sample_dumps (store_value (session_data w'))).
Proof. split; vm_compute; reflexivity. Qed.

(* ===================================================================== *)
(** * Saving and loading together *)
(* ===================================================================== *)



(* ===================================================================== *)
(** * More facts about the analytics window *)
(* ===================================================================== *)

(** Visiting days that all have a record changes nothing. *)
Lemma foldl_materialize_id (clock : Z -> pydate) (offsets : list Z) (data : store) :
  Forall (fun i => is_Some (data !! get_date_key (clock i - i))) offsets ->
  foldl (fun d i => materialize (get_date_key (clock i - i)) d) data offsets = data.
Proof.
  induction 1 as [| i rest [rec Hrec] _ IH]; [reflexivity |].
  cbn [foldl]. unfold materialize at 2. rewrite Hrec. exact IH.
Qed.

(** Entries computed by the same function for the same offsets are the
    same entries. *)
Lemma Forall2_functional {A B : Type} (f : A -> result B) (l : list A) :
  forall k1 k2 : list B,
    Forall2 (fun a b => f a = Ok b) l k1 ->
    Forall2 (fun a b => f a = Ok b) l k2 ->
    k1 = k2.
Proof.
  induction l as [| a l IH]; intros k1 k2 H1 H2.
  - apply Forall2_nil_inv_l in H1, H2. congruence.
  - apply Forall2_cons_inv_l in H1, H2.
    destruct H1 as (b1 & k1' & Hb1 & Hk1 & ->).
    destruct H2 as (b2 & k2' & Hb2 & Hk2 & ->).
    f_equal; [congruence | exact (IH _ _ Hk1 Hk2)].
Qed.

(** A record that was in the store is still there after the window was
    computed. *)
Lemma foldl_materialize_old (clock : Z -> pydate) (offsets : list Z) :
  forall (data : store) (key : string) (rec : day_record),
    data !! key = Some rec ->
    foldl (fun d i => materialize (get_date_key (clock i - i)) d) data offsets !! key
    = Some rec.
Proof.
  induction offsets as [| i rest IH]; intros data key rec Hrec; [exact Hrec |].
  cbn [foldl]. apply IH. rewrite materialize_lookup.
  destruct (decide (key = get_date_key (clock i - i))) as [-> | Hne]; [| exact Hrec].
  unfold lookup_or_default. rewrite Hrec. reflexivity.
Qed.

(** The loop depends on the clock only through the readings of its
    iterations. *)
Lemma analytics_loop_ext (clock clock' : Z -> pydate) (offsets : list Z) :
  Forall (fun i => clock' i = clock i) offsets ->
  forall (stats : list DailyStat) (data : store),
    analytics_loop clock' offsets stats data = analytics_loop clock offsets stats data.
Proof.
  induction 1 as [| i rest Hi _ IH]; intros stats data; [reflexivity |].
  assert (Hday : day_stat clock' i = day_stat clock i)
    by (unfold day_stat; rewrite Hi; reflexivity).
  cbn [analytics_loop]. rewrite Hday. unfold bind.
  destruct (day_stat clock i data) as [[stat | e] data1]; [apply IH | reflexivity].
Qed.

(** X9. On a store that follows the data model and in a window within
    the range of dates, a second computation of the window that reads
    the same dates from the clock as the first (for each offset, the
    same reading) returns the same entries and leaves the store as the
    first computation left it; and the first computation keeps every
    record that was there and adds only default records. *)
Theorem analytics_repeatable (clock clock' : Z -> pydate) (days : Z) (data : store) :
  store_ready data ->
  window_in_range clock days ->
  (forall i, 0 <= i < days -> clock' i = clock i) ->
  exists stats data',
    get_analytics_data clock days data = (Ok stats, data') /\
    get_analytics_data clock' days data' = (Ok stats, data') /\
    (forall key rec, data !! key = Some rec -> data' !! key = Some rec) /\
    (forall key rec, data' !! key = Some rec -> data !! key = None -> rec = default_day).
Proof.
  intros Hready Hrange Hsame.
  destruct (get_analytics_data_spec clock days data Hready Hrange)
    as (stats & Hrun & Hstats).
  set (data' := foldl (fun d i => materialize (get_date_key (clock i - i)) d) data
                      (py_range_down days)) in *.
  assert (Hready' : store_ready data').
  { clear Hrun Hstats. subst data'. revert data Hready.
    induction (py_range_down days) as [| i rest IH]; intros data Hready; [exact Hready |].
    cbn [foldl]. apply IH, materialize_ready, Hready. }
  destruct (get_analytics_data_spec clock days data' Hready' Hrange)
    as (stats' & Hrun' & Hstats').
  exists stats, data'. split; [exact Hrun |]. split; [| split].
  - unfold get_analytics_data. rewrite (analytics_loop_ext clock clock').
    2:{ apply Forall_forall. intros i Hi. apply Hsame, py_range_down_bounds, Hi. }
    fold (get_analytics_data clock days data').
    rewrite Hrun'. f_equal.
    + f_equal. symmetry.
      apply (Forall2_functional
               (fun i => make_stat (clock i - i)
                           (lookup_or_default (get_date_key (clock i - i)) data))
               (py_range_down days)); [exact Hstats |].
      eapply Forall2_impl; [exact Hstats' |].
      intros i stat. cbv beta. unfold data'. rewrite foldl_materialize_default. auto.
    + apply foldl_materialize_id, Forall_forall. intros i Hi.
      apply foldl_materialize_visited. exact Hi.
  - intros key rec Hrec. apply foldl_materialize_old. exact Hrec.
  - intros key rec Hrec Hnone.
    pose proof (foldl_materialize_default clock (py_range_down days) data key) as Hdef.
    fold data' in Hdef. unfold lookup_or_default in Hdef.
    rewrite Hrec, Hnone in Hdef. exact Hdef.
Qed.

Lemma analytics_repeatable_witness :
  exists stats data',
    get_analytics_data (fun _ => 739000) 7 sample_store = (Ok stats, data') /\
    get_analytics_data (fun _ => 739000) 7 data' = (Ok stats, data') /\
    (forall key rec, sample_store !! key = Some rec -> data' !! key = Some rec) /\
    (forall key rec,
        data' !! key = Some rec -> sample_store !! key = None -> rec = default_day).
Proof.
  apply (analytics_repeatable (fun _ => 739000) (fun _ => 739000) 7 sample_store).
  - exact sample_store_ready.
  - exact steady_week_in_range.
  - reflexivity.
Defined.

(** [len] counts what iteration visits. *)
Lemma py_len_iter (v : pyval) (n : Z) (its : list pyval) :
  py_len v = Ok n -> py_iter v = Ok its -> n = Z.of_nat (length its).
Proof.
  destruct v; try discriminate; unfold py_len, py_iter; intros [= <-] [= <-].
  - reflexivity.
  - reflexivity.
  - rewrite !length_fmap, length_map_to_list. reflexivity.
Qed.

(** A count goes up by at most one per element. *)
Lemma py_count_bounds (cond : pyval -> result bool) (xs : list pyval) :
  forall total n : Z,
    py_count_from cond xs total = Ok n ->
    total <= n <= total + Z.of_nat (length xs).
Proof.
  induction xs as [| x rest IH]; intros total n Hcount.
  - cbn in Hcount. injection Hcount as <-. cbn. lia.
  - cbn [py_count_from] in Hcount.
    destruct (cond x) as [c | e]; [| discriminate]. cbn [result_bind] in Hcount.
    apply IH in Hcount. cbn [length]. destruct c; lia.
Qed.

(** X10. Whenever the statistics of a day are computed, the number of
    completed face items lies between 0 and the number of face items. *)
Theorem face_done_at_most_total (d : pydate) (rec : day_record) (stat : DailyStat) :
  make_stat d rec = Ok stat -> 0 <= face_done stat <= face_total stat.
Proof.
  unfold make_stat.
  destruct (py_iter (dict_get rec "workTasks" (PList []))) as [tasks |];
    [| discriminate]. cbn [result_bind].
  destruct (py_sum _ tasks) as [mins |]; [| discriminate]. cbn [result_bind].
  destruct (py_get (dict_get rec "diet" empty_dict) _ _) as [cin |];
    [| discriminate]. cbn [result_bind].
  destruct (py_get (dict_get rec "fitness" empty_dict) _ _) as [cout |];
    [| discriminate]. cbn [result_bind].
  destruct (py_get (dict_get rec "sleep" empty_dict) _ _) as [hrs |];
    [| discriminate]. cbn [result_bind].
  destruct (py_get (dict_get rec "faceHealth" empty_dict) _ _) as [items |];
    [| discriminate]. cbn [result_bind].
  destruct (py_len items) as [total |] eqn:Hlen; [| discriminate]. cbn [result_bind].
  destruct (py_iter items) as [its |] eqn:Hits; [| discriminate]. cbn [result_bind].
  destruct (py_count _ its) as [done |] eqn:Hdone; [| discriminate]. cbn [result_bind].
  intros [= <-]. cbn [face_done face_total].
  apply py_count_bounds in Hdone.
  rewrite (py_len_iter items total its Hlen Hits). lia.
Qed.

Lemma face_done_at_most_total_witness :
  make_stat 739000 face_day = Ok face_stat /\
  face_done face_stat = 2 /\ face_total face_stat = 3 /\
  0 <= face_done face_stat <= face_total face_stat.
Proof.
  split; [reflexivity |]. split; [reflexivity |]. split; [reflexivity |].
  apply (face_done_at_most_total 739000 face_day face_stat).
  reflexivity.
Defined.

(* ===================================================================== *)
(** * Facts about the "+ 15" button *)
(* ===================================================================== *)

Lemma minutes_sum_cons (task : pyval) (tasks : list pyval) :
  minutes_sum (task :: tasks) = task_minutes task + minutes_sum tasks.
Proof. reflexivity. Qed.

(** Replacing one task changes the sum by the difference of its
    minutes. *)
Lemma minutes_sum_insert (tasks : list pyval) :
  forall (idx : nat) (old new : pyval),
    tasks !! idx = Some old ->
    minutes_sum (<[idx := new]> tasks)
    = minutes_sum tasks - task_minutes old + task_minutes new.
Proof.
  induction tasks as [| x rest IH]; intros idx old new Hold; [discriminate |].
  destruct idx as [| idx].
  - injection Hold as ->.
    change (<[0%nat := new]> (old :: rest)) with (new :: rest).
    rewrite !minutes_sum_cons. lia.
  - change (<[S idx := new]> (x :: rest)) with (x :: <[idx := new]> rest).
    rewrite !minutes_sum_cons, (IH idx old new Hold). lia.
Qed.

(** Summing the minutes of well-formed tasks, exactly. *)
Lemma py_sum_minutes (tasks : list pyval) :
  forallb is_task tasks = true ->
  forall total : Z,
    py_sum_from (fun task => py_get task "timeSpent" (PInt 0)) tasks (PInt total)
    = Ok (PInt (total + minutes_sum tasks)).
Proof.
  induction tasks as [| task rest IH]; intros Hall total.
  - cbn. f_equal. f_equal. lia.
  - cbn [forallb] in Hall. apply andb_true_iff in Hall. destruct Hall as [Htask Hrest].
    rewrite minutes_sum_cons. cbn [py_sum_from].
    destruct task as [| | | | | | t]; try discriminate.
    cbn [py_get task_minutes is_task] in *. unfold dict_get.
    destruct (t !! "timeSpent") as [[| | m | | | |] |]; try discriminate;
      cbn [result_bind py_add]; rewrite (IH Hrest); f_equal; f_equal; lia.
Qed.

(** The work minutes in the statistics of a record that follows the data
    model are the sum of the minutes of its tasks. *)
Lemma make_stat_work_mins (d : pydate) (rec : day_record) (tasks : list pyval) :
  analytics_ready rec = true ->
  rec !! "workTasks" = Some (PList tasks) ->
  exists stat, make_stat d rec = Ok stat /\ work_mins stat = PInt (minutes_sum tasks).
Proof.
  unfold analytics_ready. intros Hready Htasks.
  repeat (apply andb_true_iff in Hready; destruct Hready as [Hready ?]).
  unfold field_ok in Hready. rewrite Htasks in Hready.
  destruct (dict_field_ready rec "diet" "totalCalories" (PInt 0)) as [cin Hcin];
    [assumption |].
  destruct (dict_field_ready rec "fitness" "caloriesBurnt" (PInt 0)) as [cout Hcout];
    [assumption |].
  destruct (dict_field_ready rec "sleep" "hours" (PInt 0)) as [hrs Hhrs];
    [assumption |].
  destruct (face_items_ready rec) as (items & its & total & done & Hitems & Hlen & Hits & Hdone);
    [assumption |].
  unfold make_stat. unfold dict_get at 1. rewrite Htasks.
  cbn [py_iter result_bind]. unfold py_sum. rewrite (py_sum_minutes tasks Hready 0).
  cbn [result_bind].
  rewrite Hcin. cbn [result_bind]. rewrite Hcout. cbn [result_bind].
  rewrite Hhrs. cbn [result_bind]. rewrite Hitems. cbn [result_bind].
  rewrite Hlen. cbn [result_bind]. rewrite Hits. cbn [result_bind].
  rewrite Hdone. cbn [result_bind].
  eexists. split; [reflexivity | reflexivity].
Qed.

(** Replacing the tasks by well-formed tasks keeps a record within the
    data model. *)
Lemma analytics_ready_set_tasks (rec : day_record) (tasks : list pyval) :
  analytics_ready rec = true ->
  forallb is_task tasks = true ->
  analytics_ready (<["workTasks" := PList tasks]> rec) = true.
Proof.
  unfold analytics_ready, field_ok. intros Hready Htasks.
  rewrite lookup_insert_eq, !lookup_insert_ne by discriminate.
  repeat (apply andb_true_iff in Hready; destruct Hready as [Hready ?]).
  repeat (apply andb_true_iff; split); assumption.
Qed.

Lemma forallb_is_task_insert (tasks : list pyval) (idx : nat) (task : pyval) :
  forallb is_task tasks = true -> is_task task = true ->
  forallb is_task (<[idx := task]> tasks) = true.
Proof.
  intros Hall Htask. apply forallb_forall. intros x Hx.
  apply list_elem_of_In, list_elem_of_lookup in Hx. destruct Hx as [j Hj].
  destruct (decide (j = idx)) as [-> | Hne].
  - assert (idx < length tasks)%nat
      by (apply lookup_lt_Some in Hj; rewrite length_insert in Hj; exact Hj).
    rewrite list_lookup_insert_eq in Hj by assumption. injection Hj as <-. exact Htask.
  - rewrite list_lookup_insert_ne in Hj by congruence.
    rewrite forallb_forall in Hall. apply Hall.
    apply list_elem_of_In, list_elem_of_lookup. exists j. exact Hj.
Qed.

Lemma set_task_field_spec (key : string) (idx : nat) (field : string) (v : pyval)
    (data : store) (rec : day_record) (tasks : list pyval) (task : gmap string pyval) :
  data !! key = Some rec -> rec !! "workTasks" = Some (PList tasks) ->
  tasks !! idx = Some (PDict task) ->
  set_task_field key idx field v data =
    (Ok tt,
     <[key := <["workTasks" := PList (<[idx := PDict (<[field := v]> task)]> tasks)]> rec]>
       data).
Proof.
  intros Hrec Htasks Htask. unfold set_task_field. rewrite Hrec, Htasks, Htask.
  reflexivity.
Qed.

(** The "+ 15" button on a task with integer minutes. *)
Lemma main_task_add_time_world (json_dumps : pyval -> string) (idx : nat) (w : world)
    (tasks : list pyval) (task : gmap string pyval) (t : Z) :
  current_record w !! "workTasks" = Some (PList tasks) ->
  tasks !! idx = Some (PDict task) ->
  task !! "timeSpent" = Some (PInt t) ->
  exists fs,
    (main_task_add_time json_dumps idx w).2 =
      with_disk
        (with_data w
           (<[get_date_key (current_date w) :=
                <["workTasks" :=
                    PList (<[idx := PDict (<["timeSpent" := PInt (t + 15)]> task)]> tasks)]>
                  (current_record w)]> (session_data w)))
        fs.
Proof.
  intros Htasks Htask Hspent.
  set (key := get_date_key (current_date w)).
  set (rec := current_record w) in *.
  set (rec' := <["workTasks" :=
                   PList (<[idx := PDict (<["timeSpent" := PInt (t + 15)]> task)]> tasks)]>
                 rec).
  set (data1 := materialize key (session_data w)).
  assert (Hrec1 : data1 !! key = Some rec).
  { unfold data1. rewrite materialize_lookup.
    destruct (decide (key = key)); [reflexivity | contradiction]. }
  unfold main_task_add_time.
  rewrite (bind_ok _ _ w w w) by reflexivity.
  erewrite bind_ok by apply main_current_day_spec.
  erewrite bind_ok
    by (unfold lift, record_getitem;
        change (lookup_or_default (get_date_key (current_date w)) (session_data w))
          with rec;
        rewrite Htasks; reflexivity).
  erewrite bind_ok by (unfold lift; reflexivity).
  rewrite Htask.
  erewrite bind_ok by (unfold lift; cbn [py_getitem]; rewrite Hspent; reflexivity).
  erewrite bind_ok by (unfold lift; reflexivity).
  erewrite bind_ok
    by (apply on_data_run; apply (set_task_field_spec _ _ _ _ _ rec tasks task);
        [exact Hrec1 | exact Htasks | exact Htask]).
  erewrite bind_ok
    by (apply on_data_run, data_getitem_spec; cbn [with_data session_data];
        apply lookup_insert_eq).
  match goal with
  | |- context [update_and_save json_dumps ?u ?x] =>
      destruct (update_and_save_world json_dumps u x) as [fs Hw]
  end.
  exists fs. rewrite Hw. unfold current_record.
  cbn [with_data with_disk session_data current_date today disk]. fold key. fold rec.
  fold rec'.
  unfold lookup_or_default. rewrite lookup_insert_eq, (idemp_L (∪) rec').
  rewrite insert_insert_eq. unfold data1. rewrite insert_materialize. reflexivity.
Qed.

(** X11. The "+ 15" button on a task whose minutes are an integer adds
    exactly 15 minutes to that task and changes nothing else in the
    day's record; on a record that follows the data model, the work
    minutes that the analytics show for the day go up by exactly 15. *)
Theorem add_time_adds_15 (json_dumps : pyval -> string) (idx : nat) (w : world)
    (tasks : list pyval) (task : gmap string pyval) (t : Z) :
  current_record w !! "workTasks" = Some (PList tasks) ->
  tasks !! idx = Some (PDict task) ->
  task !! "timeSpent" = Some (PInt t) ->
  let w' := (main_task_add_time json_dumps idx w).2 in
  let tasks' := <[idx := PDict (<["timeSpent" := PInt (t + 15)]> task)]> tasks in
  current_date w' = current_date w /\
  current_record w' = <["workTasks" := PList tasks']> (current_record w) /\
  (analytics_ready (current_record w) = true ->
   forall d, exists stat stat',
     make_stat d (current_record w) = Ok stat /\
     make_stat d (current_record w') = Ok stat' /\
     exists m, work_mins stat = PInt m /\ work_mins stat' = PInt (m + 15)).
Proof.
  intros Htasks Htask Hspent w' tasks'.
  destruct (main_task_add_time_world json_dumps idx w tasks task t Htasks Htask Hspent)
    as [fs Hw].
  fold tasks' in Hw.
  assert (Hdate : current_date w' = current_date w) by (unfold w'; rewrite Hw; reflexivity).
  assert (Hrec : current_record w' = <["workTasks" := PList tasks']> (current_record w)).
  { unfold current_record at 1. rewrite Hdate. unfold w'. rewrite Hw.
    cbn [with_data with_disk session_data]. unfold lookup_or_default.
    rewrite lookup_insert_eq. reflexivity. }
  split; [exact Hdate |]. split; [exact Hrec |].
  intros Hready d.
  assert (Hall : forallb is_task tasks = true).
  { unfold analytics_ready in Hready.
    repeat (apply andb_true_iff in Hready; destruct Hready as [Hready ?]).
    unfold field_ok in Hready. rewrite Htasks in Hready. exact Hready. }
  assert (Hall' : forallb is_task tasks' = true).
  { apply forallb_is_task_insert; [exact Hall |].
    cbn [is_task]. rewrite lookup_insert_eq. reflexivity. }
  destruct (make_stat_work_mins d _ tasks Hready Htasks) as (stat & Hstat & Hmins).
  destruct (make_stat_work_mins d (current_record w') tasks') as (stat' & Hstat' & Hmins').
  { rewrite Hrec. apply analytics_ready_set_tasks; assumption. }
  { rewrite Hrec. apply lookup_insert_eq. }
  exists stat, stat'. split; [exact Hstat |]. split; [exact Hstat' |].
  exists (minutes_sum tasks). split; [exact Hmins |].
  rewrite Hmins'. f_equal. unfold tasks'.
  rewrite (minutes_sum_insert tasks idx (PDict task) _ Htask).
  cbn [task_minutes]. rewrite Hspent, lookup_insert_eq. lia.
Qed.

Lemma add_time_adds_15_witness :
  let w := with_data fresh_world (<["2024-04-24" := sample_store !!! "2024-04-23"]> ∅) in
  let w' := (main_task_add_time sample_dumps 0 w).2 in
  current_date w' = current_date w /\
  current_record w' =
    <["workTasks" :=
        PList (<[0%nat := PDict (<["timeSpent" := PInt (30 + 15)]>
                              (list_to_map [("id", PInt 1); ("title", PStr "write");
                                            ("priority", PStr "High");
                                            ("timeSpent", PInt 30);
                                            ("completed", PBool true)]))]>
                 [PDict (list_to_map [("id", PInt 1); ("title", PStr "write");
                                      ("priority", PStr "High");
                                      ("timeSpent", PInt 30);
                                      ("completed", PBool true)])])]>
      (current_record w) /\
  (analytics_ready (current_record w) = true ->
   forall d, exists stat stat',
     make_stat d (current_record w) = Ok stat /\
     make_stat d (current_record w') = Ok stat' /\
     exists m, work_mins stat = PInt m /\ work_mins stat' = PInt (m + 15)).
Proof.
  intros w.
  apply (add_time_adds_15 sample_dumps 0 w
           [PDict (list_to_map [("id", PInt 1); ("title", PStr "write");
                                ("priority", PStr "High");
                                ("timeSpent", PInt 30);
                                ("completed", PBool true)])]
           (list_to_map [("id", PInt 1); ("title", PStr "write");
                         ("priority", PStr "High");
                         ("timeSpent", PInt 30);
                         ("completed", PBool true)])
           30).
  - vm_compute. reflexivity.
  - reflexivity.
  - reflexivity.
Defined.

(* ===================================================================== *)
(** * The analytics next to the streak and the diet *)
(* ===================================================================== *)

(** Where the fields of an entry come from. *)
Lemma make_stat_fields (d : pydate) (rec : day_record) (stat : DailyStat) :
  make_stat d rec = Ok stat ->
  py_get (dict_get rec "diet" empty_dict) "totalCalories" (PInt 0) = Ok (cals_in stat) /\
  energy stat = dict_get rec "energy" (PInt 0) /\
  nofap stat = dict_get rec "nofapStreak" (PInt 0).
Proof.
  unfold make_stat.
  destruct (py_iter (dict_get rec "workTasks" (PList []))) as [tasks |];
    [| discriminate]. cbn [result_bind].
  destruct (py_sum _ tasks) as [mins |]; [| discriminate]. cbn [result_bind].
  destruct (py_get (dict_get rec "diet" empty_dict) _ _) as [cin |];
    [| discriminate]. cbn [result_bind].
  destruct (py_get (dict_get rec "fitness" empty_dict) _ _) as [cout |];
    [| discriminate]. cbn [result_bind].
  destruct (py_get (dict_get rec "sleep" empty_dict) _ _) as [hrs |];
    [| discriminate]. cbn [result_bind].
  destruct (py_get (dict_get rec "faceHealth" empty_dict) _ _) as [items |];
    [| discriminate]. cbn [result_bind].
  destruct (py_len items) as [total |]; [| discriminate]. cbn [result_bind].
  destruct (py_iter items) as [its |]; [| discriminate]. cbn [result_bind].
  destruct (py_count _ its) as [done |]; [| discriminate]. cbn [result_bind].
  intros [= <-]. repeat split; reflexivity.
Qed.

(** The flag as the analytics read it and as the streak reads it. *)
Lemma flag_readings_agree (key : string) (data : store) :
  py_eq_int (dict_get (lookup_or_default key data) "nofapStreak" (PInt 0)) 1
  = match data !! key with
    | Some rec => py_eq_int (dict_get rec "nofapStreak" PNone) 1
    | None => false
    end.
Proof.
  unfold lookup_or_default, dict_get.
  destruct (data !! key) as [rec |]; [| reflexivity].
  destruct (rec !! "nofapStreak"); reflexivity.
Qed.

(** X12. The analytics and the streak agree on which days are flagged:
    in the window (within the range of dates) of a store that follows the
    data model, the entry of a day has [nofap == 1] (the green bar of the
    chart) exactly when the streak calculator, started on any day
    [today], counts that day as flagged. *)
Theorem analytics_flags_match_streak (clock : Z -> pydate) (today : pydate) (days : Z)
    (data : store) :
  store_ready data ->
  window_in_range clock days ->
  exists stats data',
    get_analytics_data clock days data = (Ok stats, data') /\
    forall stat,
      stat ∈ stats ->
      py_eq_int (nofap stat) 1 = day_flagged data today (today - date stat).
Proof.
  intros Hready Hrange.
  destruct (get_analytics_data_spec clock days data Hready Hrange)
    as (stats & Hrun & Hstats).
  eexists stats, _. split; [exact Hrun |].
  intros stat Hin.
  apply list_elem_of_lookup in Hin. destruct Hin as [j Hj].
  destruct (Forall2_lookup_r _ _ _ _ _ Hstats Hj) as (i & _ & Hmake).
  pose proof (make_stat_date _ _ _ Hmake) as Hdate.
  destruct (make_stat_fields _ _ _ Hmake) as (_ & _ & Hflag).
  rewrite Hflag, flag_readings_agree, Hdate. unfold day_flagged.
  replace (today - (today - (clock i - i))) with (clock i - i) by lia. reflexivity.
Qed.

Lemma analytics_flags_match_streak_witness :
  exists stats data',
    get_analytics_data (fun _ => 739000) 7 sample_store = (Ok stats, data') /\
    forall stat,
      stat ∈ stats ->
      py_eq_int (nofap stat) 1 = day_flagged sample_store 739000 (739000 - date stat).
Proof.
  apply (analytics_flags_match_streak (fun _ => 739000) 739000 7 sample_store).
  - exact sample_store_ready.
  - exact steady_week_in_range.
Defined.

(** Replacing the diet by a dict keeps a record within the data model. *)
Lemma analytics_ready_set_diet (rec : day_record) (diet : gmap string pyval) :
  analytics_ready rec = true ->
  analytics_ready (<["diet" := PDict diet]> rec) = true.
Proof.
  unfold analytics_ready, field_ok. intros Hready.
  rewrite lookup_insert_eq, !lookup_insert_ne by discriminate.
  repeat (apply andb_true_iff in Hready; destruct Hready as [Hready ?]).
  repeat (apply andb_true_iff; split); try assumption. reflexivity.
Qed.

(** X13. After the "Add Food" form the analytics show, as the day's
    calories, the sum of the calories of all its entries: the entry
    computed from the day's record has [cals_in] equal to that sum, and
    the record still follows the data model. *)
Theorem add_food_shows_in_analytics (json_dumps : pyval -> string)
    (food_name : string) (food_cals now_ms : Z) (w : world)
    (diet : gmap string pyval) (entries : list pyval) (d : pydate) :
  str_truthy food_name = true ->
  analytics_ready (current_record w) = true ->
  current_record w !! "diet" = Some (PDict diet) ->
  diet !! "entries" = Some (PList entries) ->
  Forall (fun e => is_Some (entry_calories e)) entries ->
  let w' := (main_add_food json_dumps food_name food_cals now_ms w).2 in
  analytics_ready (current_record w') = true /\
  exists stat,
    make_stat d (current_record w') = Ok stat /\
    cals_in stat = PInt (calories_sum entries + food_cals).
Proof.
  intros Hname Hready Hdiet Hentries Hcal w'.
  pose proof (main_add_food_spec json_dumps food_name food_cals now_ms w diet entries
                Hname Hdiet Hentries Hcal) as Hspec.
  cbv zeta in Hspec.
  set (key := get_date_key (current_date w)) in *.
  set (entries' := entries ++ [food_entry food_name food_cals now_ms]) in *.
  set (diet2 := <["entries" := PList entries']> diet) in *.
  set (rec2 := <["diet" := PDict diet2]> (lookup_or_default key (session_data w))) in *.
  set (diet3 := <["totalCalories" := PInt (calories_sum entries')]> diet2) in *.
  set (rec3 := <["diet" := PDict diet3]> rec2) in *.
  assert (Hrec : current_record w' = rec3).
  { unfold w'. rewrite Hspec.
    match goal with
    | |- context [update_and_save json_dumps ?u ?x] =>
        destruct (update_and_save_world json_dumps u x) as [fs Hw]
    end.
    rewrite Hw. unfold current_record.
    cbn [with_data with_disk session_data current_date today disk]. fold key.
    unfold lookup_or_default at 1. rewrite lookup_insert_eq.
    unfold lookup_or_default. rewrite lookup_insert_eq. apply (idemp_L (∪)). }
  assert (Hready3 : analytics_ready rec3 = true).
  { unfold rec3, rec2. apply analytics_ready_set_diet, analytics_ready_set_diet.
    exact Hready. }
  rewrite Hrec. split; [exact Hready3 |].
  destruct (make_stat_ready d rec3 Hready3) as [stat Hstat].
  exists stat. split; [exact Hstat |].
  destruct (make_stat_fields _ _ _ Hstat) as (Hcals & _ & _).
  unfold rec3, dict_get in Hcals. rewrite lookup_insert_eq in Hcals.
  cbn [py_get] in Hcals. unfold dict_get, diet3 in Hcals.
  rewrite lookup_insert_eq in Hcals. injection Hcals as <-.
  unfold entries'. rewrite calories_sum_app. reflexivity.
Qed.

Lemma add_food_shows_in_analytics_witness :
  let w' := (main_add_food sample_dumps "A" 200 1 fresh_world).2 in
  analytics_ready (current_record w') = true /\
  exists stat,
    make_stat 739000 (current_record w') = Ok stat /\
    cals_in stat = PInt (0 + 200).
Proof.
  apply (add_food_shows_in_analytics sample_dumps "A" 200 1 fresh_world
           (list_to_map [("entries", PList []); ("totalCalories", PInt 0)]) [] 739000).
  - reflexivity.
  - reflexivity.
  - reflexivity.
  - reflexivity.
  - constructor.
Defined.
